(** * A product-and-order catalog backend: data-access layer and handlers

    Shallow embedding of [products.js], [orders.js] and the delete handlers
    of [api.js].  The services are thin wrappers over two Mongoose models;
    the model operations they call ([find], [sort], [skip], [limit],
    [findById], [save], [deleteOne], [populate]) are embedded next to them
    as functions on an explicit database state.

    Conventions.
    - A collection is a finite map from the [_id] of a document to its
      fields: MongoDB keeps [_id] unique within a collection.
    - An object whose keys may be missing is a record of [option]s; [None]
      is the JavaScript [undefined].
    - [Number]s are integers ([Z] for [likes], [nat] for [offset] and
      [limit]); negative, fractional and [NaN] paging values are outside
      the model.
    - An [async] function is a computation in the monad [M], which threads
      the database and may throw.
    - A record is its schema paths.  What Mongoose keeps beside them, the
      version key [__v] of a document and the [_id] it gives every tag
      subdocument, is not represented: statements about a record are
      statements about its schema paths. *)

From Stdlib Require Import ZArith String.
From stdpp Require Import base option list sorting gmap strings fin_maps.

Local Open Scope string_scope.
Local Open Scope nat_scope.

(** ** JavaScript truthiness of an optional string

    [x ? a : b] takes the second branch when [x] is [undefined] or the
    empty string. *)
Definition truthy (x : option string) : bool :=
  match x with
  | Some s => negb (String.eqb s "")
  | None => false
  end.

(** ** Documents *)

Record doc (F : Type) : Type := Doc { _id : string; fields : F }.
Arguments Doc {F} _ _.
Arguments _id {F} _.
Arguments fields {F} _.

(** *** Product schema ([products.js], lines 18-57) *)

Record Urls : Type := mkUrls {
  regular : option string;
  small : option string;
  thumb : option string
}.

Record Links : Type := mkLinks {
  self : option string;
  html : option string
}.

Record User : Type := mkUser {
  user_id : option string;
  first_name : option string;
  last_name : option string;
  portfolio_url : option string;
  username : option string
}.

(** A tag entry, by its one schema path. *)
Record Tag : Type := mkTag { title : option string }.

Record ProductFields : Type := mkProduct {
  description : option string;
  alt_description : option string;
  likes : option Z;
  urls : Urls;
  links : Links;
  user : User;
  tags : list Tag
}.

Abbreviation ProductDoc := (doc ProductFields).

(** *** Order schema ([orders.js], lines 9-33)

    The [products] path holds references into the Product collection.  In
    the database a reference is the identifier; in a document in memory it
    is either the identifier or, once populated, the product it names. *)

Module OrderSchema.

Inductive ref : Type :=
  | Id (pid : string)
  | Populated (p : ProductDoc).

Record OrderFields (R : Type) : Type := mkOrder {
  buyerEmail : option string;
  products : list R;
  status : option string
}.
Arguments mkOrder {R} _ _ _.
Arguments buyerEmail {R} _.
Arguments products {R} _.
Arguments status {R} _.

Inductive OrderPath : Type := PBuyerEmail | PProducts | PStatus.

(** An order document in memory remembers which paths the next [save] has
    to write: those assigned since it was loaded, and those that were
    missing in the stored document and filled by a schema default when it
    was loaded.  [save] writes those paths only. *)
Record OrderDoc : Type := mkOrderDoc {
  order : doc (OrderFields ref);
  modified : list OrderPath
}.

End OrderSchema.
Export OrderSchema.

(** ** Database state, errors and the effect monad *)

Record Db : Type := mkDb {
  Product_coll : gmap string ProductFields;
  Order_coll : gmap string (OrderFields string)
}.

Inductive error : Type :=
  | TypeError          (* property access on [null] *)
  | ValidationError    (* a schema validator rejected the document *)
  | MongoServerError.  (* duplicate key on insert *)

Inductive result (A : Type) : Type :=
  | Ok (a : A)
  | Throw (e : error).
Arguments Ok {A} _.
Arguments Throw {A} _.

Definition M (A : Type) : Type := Db → result A * Db.

Definition throw {A} (e : error) : M A := λ db, (Throw e, db).
Definition get_db : M Db := λ db, (Ok db, db).
Definition put_db (db' : Db) : M unit := λ _, (Ok tt, db').

#[export] Instance M_ret : MRet M := λ A a db, (Ok a, db).
#[export] Instance M_bind : MBind M := λ A B f m db,
  match m db with
  | (Ok a, db') => f a db'
  | (Throw e, db') => (Throw e, db')
  end.

(** ** Query pipeline shared by both models

    [sort({_id: 1})] orders documents by ascending identifier, strings
    being compared code unit by code unit; [skip(n)] drops the first [n]
    documents; [limit(n)] keeps the first [n], except that MongoDB reads a
    limit of [0] as "no limit". *)
Module Query.

Definition id_le {F} (d1 d2 : doc F) : Prop := String.le (_id d1) (_id d2).

#[export] Instance id_le_dec {F} : RelDecision (@id_le F).
Proof. intros d1 d2. unfold id_le. apply _. Defined.

Definition documents {F} (coll : gmap string F) : list (doc F) :=
  (λ kv, Doc kv.1 kv.2) <$> map_to_list coll.

Definition find {F} (query : doc F → bool) (coll : gmap string F)
  : list (doc F) :=
  List.filter query (documents coll).

Definition sort {F} (l : list (doc F)) : list (doc F) :=
  merge_sort id_le l.

Definition skip {A} (n : nat) (l : list A) : list A := drop n l.

Definition limit {A} (n : nat) (l : list A) : list A :=
  match n with
  | O => l
  | _ => take n l
  end.

End Query.

(** ** Schema validators

    [required: true] on a String path rejects [undefined] and the empty
    string; on a Number path it rejects [undefined]. *)
Module Schema.

Definition required_string (v : option string) : bool :=
  match v with
  | Some s => negb (String.eqb s "")
  | None => false
  end.

Definition required_number (v : option Z) : bool :=
  match v with
  | Some _ => true
  | None => false
  end.

End Schema.

(** The outcome that [deleteOne] resolves to. *)
Record DeleteResult : Type := mkDeleteResult {
  acknowledged : bool;
  deletedCount : nat
}.

(** ** The Product model *)
Module Product.

Definition validate (p : ProductFields) : bool :=
  Schema.required_number (likes p)
  && Schema.required_string (regular (urls p))
  && Schema.required_string (small (urls p))
  && Schema.required_string (thumb (urls p))
  && Schema.required_string (self (links p))
  && Schema.required_string (html (links p))
  && Schema.required_string (user_id (user p))
  && Schema.required_string (first_name (user p))
  && Schema.required_string (username (user p))
  && forallb (λ t, Schema.required_string (title t)) (tags p).

(** The object handed to [new Product(fields)]: any key may be missing,
    [_id] included.  A nested object that is missing reads as the nested
    object with every key missing. *)
Record payload : Type := mkPayload {
  f_id : option string;
  f_description : option string;
  f_alt_description : option string;
  f_likes : option Z;
  f_urls : Urls;
  f_links : Links;
  f_user : User;
  f_tags : option (list Tag)
}.

(** [new Product(fields)]: the schema default of [_id] is a call to
    [cuid]; an array path defaults to the empty array. *)
Definition new (cuid : string) (f : payload) : ProductDoc :=
  Doc (default cuid (f_id f))
      {| description := f_description f;
         alt_description := f_alt_description f;
         likes := f_likes f;
         urls := f_urls f;
         links := f_links f;
         user := f_user f;
         tags := default [] (f_tags f) |}.

Definition findById (id : string) : M (option ProductDoc) :=
  db ← get_db;
  mret (Doc id <$> Product_coll db !! id).

Definition set_coll (c : gmap string ProductFields) : M unit :=
  db ← get_db;
  put_db {| Product_coll := c; Order_coll := Order_coll db |}.

(** [save()] of a document made by [new]: validate, then insert. *)
Definition save_new (d : ProductDoc) : M ProductDoc :=
  if validate (fields d) then
    db ← get_db;
    match Product_coll db !! _id d with
    | Some _ => throw MongoServerError
    | None =>
        set_coll (<[_id d := fields d]> (Product_coll db));;
        mret d
    end
  else throw ValidationError.

(** [save()] of a document loaded from the collection: validate, then
    update the schema paths of the stored document that has the same
    [_id]. *)
Definition save (d : ProductDoc) : M ProductDoc :=
  if validate (fields d) then
    db ← get_db;
    set_coll (alter (λ _, fields d) (_id d) (Product_coll db));;
    mret d
  else throw ValidationError.

Definition deleteOne (id : string) : M DeleteResult :=
  db ← get_db;
  set_coll (delete id (Product_coll db));;
  mret {| acknowledged := true;
          deletedCount := match Product_coll db !! id with
                          | Some _ => 1
                          | None => 0
                          end |}.

End Product.

(** ** The Product service ([products.js]) *)
Module Products.

Record options : Type := mkOptions {
  offset : option nat;
  limit : option nat;
  tag : option string
}.

(** [{ tags: { $elemMatch: { title: tag } } }] *)
Definition elemMatch_title (tag : string) (d : ProductDoc) : bool :=
  existsb (λ t, bool_decide (title t = Some tag)) (tags (fields d)).

Definition list (opts : options) : M (list ProductDoc) :=
  let offset := default 0 (offset opts) in
  let limit := default 25 (limit opts) in
  let query :=
    if truthy (tag opts)
    then elemMatch_title (default "" (tag opts))
    else λ _, true in
  db ← get_db;
  mret (Query.limit limit
         (Query.skip offset
           (Query.sort (Query.find query (Product_coll db))))).

Definition get (_id : string) : M (option ProductDoc) :=
  Product.findById _id.

Definition create (cuid : string) (fields : Product.payload) : M ProductDoc :=
  Product.save_new (Product.new cuid fields).

(** The change object of [edit], with one optional entry per schema path;
    [None] means that [Object.keys(change)] does not list the key.  A nested
    object is assigned as a whole.  Keys that the schema does not declare
    are not part of a document, and [_id] and [null] values are left out of
    the change objects considered here. *)
Record change : Type := mkChange {
  c_description : option string;
  c_alt_description : option string;
  c_likes : option Z;
  c_urls : option Urls;
  c_links : option Links;
  c_user : option User;
  c_tags : option (Datatypes.list Tag)
}.

(** [Object.keys(change).forEach(key => product[key] = change[key])] *)
Definition assign (c : change) (p : ProductDoc) : ProductDoc :=
  Doc (_id p)
      {| description := from_option Some (description (fields p)) (c_description c);
         alt_description :=
           from_option Some (alt_description (fields p)) (c_alt_description c);
         likes := from_option Some (likes (fields p)) (c_likes c);
         urls := default (urls (fields p)) (c_urls c);
         links := default (links (fields p)) (c_links c);
         user := default (user (fields p)) (c_user c);
         tags := default (tags (fields p)) (c_tags c) |}.

(** [get] resolves to [null] when no product has the identifier; the
    assignments, or else the call of [save], then throw a [TypeError]. *)
Definition edit (_id : string) (c : change) : M ProductDoc :=
  product ← get _id;
  match product with
  | None => throw TypeError
  | Some product => Product.save (assign c product)
  end.

Definition destroy (_id : string) : M DeleteResult :=
  Product.deleteOne _id.

End Products.

(** ** The Order model *)
Module Order.

(** [enum: ['CREATED', 'PENDING', 'COMPLETED']] *)
Definition status_enum : list string := ["CREATED"; "PENDING"; "COMPLETED"].

(** The enum validator is not run on [undefined]. *)
Definition enum_ok (v : option string) : bool :=
  match v with
  | Some s => bool_decide (s ∈ status_enum)
  | None => true
  end.

(** [required: true] sits on the element type of [products]: it is checked
    on every element of the array, and an array without elements has
    nothing to check.  A populated element is a document, hence present. *)
Definition required_ref (r : ref) : bool :=
  match r with
  | Id pid => Schema.required_string (Some pid)
  | Populated _ => true
  end.

Definition validate (o : OrderFields ref) : bool :=
  Schema.required_string (buyerEmail o)
  && forallb required_ref (products o)
  && enum_ok (status o).

Record payload : Type := mkPayload {
  f_id : option string;
  f_buyerEmail : option string;
  f_products : option (list string);
  f_status : option string
}.

(** [new Order(fields)]: [_id] defaults to a call to [cuid], [status] to
    ['CREATED'], the array to the empty array. *)
Definition new (cuid : string) (f : payload) : OrderDoc :=
  {| order :=
       Doc (default cuid (f_id f))
           {| buyerEmail := f_buyerEmail f;
              products := Id <$> default [] (f_products f);
              status := Some (default "CREATED" (f_status f)) |};
     modified := [] |}.

Definition ref_id (r : ref) : string :=
  match r with
  | Id pid => pid
  | Populated p => _id p
  end.

(** What is written for a document: references are stored by identifier. *)
Definition depopulate (o : OrderFields ref) : OrderFields string :=
  {| buyerEmail := buyerEmail o;
     products := ref_id <$> products o;
     status := status o |}.

(** A stored document as read by a query, nothing populated.  A stored
    document without [status] is read with the schema default ['CREATED'],
    and the defaulted path is among those the next [save] writes. *)
Definition hydrate (d : doc (OrderFields string)) : OrderDoc :=
  {| order :=
       Doc (_id d)
           {| buyerEmail := buyerEmail (fields d);
              products := Id <$> products (fields d);
              status := Some (default "CREATED" (status (fields d))) |};
     modified := match status (fields d) with
                 | Some _ => []
                 | None => [PStatus]
                 end |}.

Definition findById (id : string) : M (option OrderDoc) :=
  db ← get_db;
  mret ((λ o, hydrate (Doc id o)) <$> Order_coll db !! id).

(** [populate('products')]: every reference is replaced by the product
    with that identifier; a reference that names no product is removed
    from the array. *)
Definition resolve (db : Db) (r : ref) : option ref :=
  match r with
  | Id pid => (λ p, Populated (Doc pid p)) <$> Product_coll db !! pid
  | Populated p => Some (Populated p)
  end.

Definition populate (d : OrderDoc) : M OrderDoc :=
  db ← get_db;
  mret {| order :=
            Doc (_id (order d))
                {| buyerEmail := buyerEmail (fields (order d));
                   products := omap (resolve db) (products (fields (order d)));
                   status := status (fields (order d)) |};
          modified := modified d |}.

Definition set_coll (c : gmap string (OrderFields string)) : M unit :=
  db ← get_db;
  put_db {| Product_coll := Product_coll db; Order_coll := c |}.

Definition saved (d : OrderDoc) : OrderDoc :=
  {| order := order d; modified := [] |}.

(** [save()] of a document made by [new]: validate, then insert. *)
Definition save_new (d : OrderDoc) : M OrderDoc :=
  if validate (fields (order d)) then
    db ← get_db;
    match Order_coll db !! _id (order d) with
    | Some _ => throw MongoServerError
    | None =>
        set_coll (<[_id (order d) := depopulate (fields (order d))]>
                    (Order_coll db));;
        mret (saved d)
    end
  else throw ValidationError.

#[export] Instance OrderPath_eq_dec : EqDecision OrderPath.
Proof. solve_decision. Defined.

(** The update that [save()] sends for a loaded document sets the paths
    recorded in [modified], assigned or defaulted, and leaves the other
    schema paths as stored. *)
Definition write_modified (d : OrderDoc) (stored : OrderFields string)
  : OrderFields string :=
  let new := depopulate (fields (order d)) in
  {| buyerEmail :=
       if bool_decide (PBuyerEmail ∈ modified d)
       then buyerEmail new else buyerEmail stored;
     products :=
       if bool_decide (PProducts ∈ modified d)
       then products new else products stored;
     status :=
       if bool_decide (PStatus ∈ modified d)
       then status new else status stored |}.

Definition save (d : OrderDoc) : M OrderDoc :=
  if validate (fields (order d)) then
    db ← get_db;
    set_coll (alter (write_modified d) (_id (order d)) (Order_coll db));;
    mret (saved d)
  else throw ValidationError.

Definition deleteOne (id : string) : M DeleteResult :=
  db ← get_db;
  set_coll (delete id (Order_coll db));;
  mret {| acknowledged := true;
          deletedCount := match Order_coll db !! id with
                          | Some _ => 1
                          | None => 0
                          end |}.

End Order.

(** ** The Order service ([orders.js]) *)
Module Orders.

Record options : Type := mkOptions {
  offset : option nat;
  limit : option nat;
  productId : option string;
  status : option string
}.

(** [{ products: productId }] matches an order whose array contains the
    identifier; [{ status: status }] matches on equality. *)
Definition productQuery (productId : option string)
  (d : doc (OrderFields string)) : bool :=
  if truthy productId
  then bool_decide (default "" productId ∈ products (fields d))
  else true.

Definition statusQuery (status : option string)
  (d : doc (OrderFields string)) : bool :=
  if truthy status
  then bool_decide (OrderSchema.status (fields d) = status)
  else true.

Definition list (opts : options) : M (list OrderDoc) :=
  let offset := default 0 (offset opts) in
  let limit := default 25 (limit opts) in
  let query := λ d,
    productQuery (productId opts) d && statusQuery (status opts) d in
  db ← get_db;
  mret (Order.hydrate <$>
         Query.limit limit
           (Query.skip offset
             (Query.sort (Query.find query (Order_coll db))))).

Definition get (_id : string) : M (option OrderDoc) :=
  order ← Order.findById _id;
  match order with
  | None => mret None
  | Some order =>
      order ← Order.populate order;
      mret (Some order)
  end.

Definition create (cuid : string) (fields : Order.payload) : M OrderDoc :=
  order ← Order.save_new (Order.new cuid fields);
  Order.populate order.

(** The change object of [edit], as for products. *)
Record change : Type := mkChange {
  c_buyerEmail : option string;
  c_products : option (Datatypes.list string);
  c_status : option string
}.

(** [order[key] = value], one setter per schema path. *)
Definition set_buyerEmail (v : string) (d : OrderDoc) : OrderDoc :=
  let o := fields (order d) in
  {| order := Doc (_id (order d))
                  (mkOrder (Some v) (products o) (OrderSchema.status o));
     modified := PBuyerEmail :: modified d |}.

Definition set_products (v : Datatypes.list string) (d : OrderDoc)
  : OrderDoc :=
  let o := fields (order d) in
  {| order := Doc (_id (order d))
                  (mkOrder (buyerEmail o) (Id <$> v) (OrderSchema.status o));
     modified := PProducts :: modified d |}.

Definition set_status (v : string) (d : OrderDoc) : OrderDoc :=
  let o := fields (order d) in
  {| order := Doc (_id (order d))
                  (mkOrder (buyerEmail o) (products o) (Some v));
     modified := PStatus :: modified d |}.

(** [Object.keys(change).forEach(key => order[key] = change[key])] *)
Definition assign_key {V} (set : V → OrderDoc → OrderDoc)
  (v : option V) (d : OrderDoc) : OrderDoc :=
  match v with
  | Some v => set v d
  | None => d
  end.

Definition assign (c : change) (d : OrderDoc) : OrderDoc :=
  assign_key set_status (c_status c)
    (assign_key set_products (c_products c)
      (assign_key set_buyerEmail (c_buyerEmail c) d)).

(** As for products, a [null] result of [get] is used unchecked. *)
Definition edit (_id : string) (c : change) : M OrderDoc :=
  order ← get _id;
  match order with
  | None => throw TypeError
  | Some order => Order.save (assign c order)
  end.

Definition destroy (_id : string) : M unit :=
  Order.deleteOne _id;;
  mret tt.

End Orders.

(** ** The delete handlers ([api.js]) *)
Module Api.

(** Bodies that [res.json] serialises. *)
#[warnings="-register-all"]
Inductive json : Type :=
  | JNull
  | JBool (b : bool)
  | JNum (n : Z)
  | JStr (s : string)
  | JArr (l : list json)
  | JObj (kvs : list (string * json)).

Record request : Type := mkRequest { params_id : string }.

Definition DeleteResult_toJSON (r : DeleteResult) : json :=
  JObj [("acknowledged", JBool (acknowledged r));
        ("deletedCount", JNum (Z.of_nat (deletedCount r)))].

(** A handler is run for the body it hands to [res.json]. *)
Definition deleteProduct (req : request) : M json :=
  response ← Products.destroy (params_id req);
  mret (DeleteResult_toJSON response).

Definition deleteOrder (req : request) : M json :=
  Orders.destroy (params_id req);;
  mret (JObj [("success", JBool true)]).

(** What a handler does with a request: it sends a body with [res.json],
    or it calls [next()] and leaves the answer to the middleware after
    it. *)
Inductive reply (A : Type) : Type :=
  | Json (body : A)
  | Next.
Arguments Json {A} _.
Arguments Next {A}.

(** [getProduct]: [if (!product) return next()]; a document is truthy. *)
Definition getProduct (req : request) : M (reply ProductDoc) :=
  product ← Products.get (params_id req);
  match product with
  | None => mret Next
  | Some product => mret (Json product)
  end.

End Api.

(** * Vocabulary of the statements *)

(** A product has the tag [t] when one of its tag entries has exactly that
    title. *)
Definition has_tag (t : string) (p : ProductFields) : Prop :=
  ∃ x, x ∈ tags p ∧ title x = Some t.

(** The body [{success: true}]. *)
Definition success_body : Api.json := Api.JObj [("success", Api.JBool true)].

(** The change object [{likes: n}]. *)
Definition likes_only (n : Z) : Products.change :=
  {| Products.c_description := None; Products.c_alt_description := None;
     Products.c_likes := Some n; Products.c_urls := None;
     Products.c_links := None; Products.c_user := None;
     Products.c_tags := None |}.

(** The document that [Orders.get] builds from a stored order: the
    references resolved, a missing status read as ['CREATED'] and recorded
    for the next [save]. *)
Definition loaded (db : Db) (id : string) (o : OrderFields string) : OrderDoc :=
  {| order := Doc id {| buyerEmail := buyerEmail o;
                        products := omap (Order.resolve db) (Id <$> products o);
                        status := Some (default "CREATED" (status o)) |};
     modified := match status o with
                 | Some _ => []
                 | None => [PStatus]
                 end |}.

(** [refs] is the denormalised view of [ids]: going through [ids] in
    order, every identifier that names a stored product contributes the full
    record of that product, and an identifier that names none contributes
    nothing. *)
Inductive expands (db : Db) : list string → list ref → Prop :=
  | expands_nil : expands db [] []
  | expands_found pid p ids refs :
      Product_coll db !! pid = Some p →
      expands db ids refs →
      expands db (pid :: ids) (Populated (Doc pid p) :: refs)
  | expands_dangling pid ids refs :
      Product_coll db !! pid = None →
      expands db ids refs →
      expands db (pid :: ids) refs.

(** The returned record has the keys of the payload with the values of the
    payload: every schema path as given, [tags] present exactly when the
    payload has [tags]. *)
Definition equal_to_input (f : Product.payload) (d : ProductDoc) : Prop :=
  description (fields d) = Product.f_description f
  ∧ alt_description (fields d) = Product.f_alt_description f
  ∧ likes (fields d) = Product.f_likes f
  ∧ urls (fields d) = Product.f_urls f
  ∧ links (fields d) = Product.f_links f
  ∧ user (fields d) = Product.f_user f
  ∧ Some (tags (fields d)) = Product.f_tags f.

(** A required String path is satisfied by a non-empty string. *)
Definition present (v : option string) : Prop := ∃ s, v = Some s ∧ s ≠ "".

(** The records that pass the validators of the Product schema. *)
Definition Product_complete (p : ProductFields) : Prop :=
  is_Some (likes p)
  ∧ present (regular (urls p)) ∧ present (small (urls p))
  ∧ present (thumb (urls p))
  ∧ present (self (links p)) ∧ present (html (links p))
  ∧ present (user_id (user p)) ∧ present (first_name (user p))
  ∧ present (username (user p))
  ∧ Forall (λ t, present (title t)) (tags p).

(** The stored orders that pass the validators of the Order schema. *)
Definition Order_complete (o : OrderFields string) : Prop :=
  present (buyerEmail o)
  ∧ Forall (λ pid, pid ≠ "") (products o)
  ∧ (∀ s, status o = Some s → s ∈ Order.status_enum).

(** Every stored record passes the validators of its schema. *)
Definition Db_valid (db : Db) : Prop :=
  map_Forall (λ _ p, Product.validate p = true) (Product_coll db)
  ∧ map_Forall (λ _ o, Order.validate (fields (order (Order.hydrate (Doc "" o))))
                       = true) (Order_coll db).

(** The change objects [{}] and [{status: s}]. *)
Definition no_change : Products.change :=
  {| Products.c_description := None; Products.c_alt_description := None;
     Products.c_likes := None; Products.c_urls := None;
     Products.c_links := None; Products.c_user := None;
     Products.c_tags := None |}.

Definition status_only (s : string) : Orders.change :=
  {| Orders.c_buyerEmail := None; Orders.c_products := None;
     Orders.c_status := Some s |}.

(** * Example states used by the closed lemmas *)

Definition urls_ex : Urls :=
  {| regular := Some "https://img/r"; small := Some "https://img/s";
     thumb := Some "https://img/t" |}.
Definition links_ex : Links :=
  {| self := Some "https://api/p"; html := Some "https://web/p" |}.
Definition user_ex : User :=
  {| user_id := Some "u1"; first_name := Some "Ada"; last_name := None;
     portfolio_url := None; username := Some "ada" |}.

Definition p1_ex : ProductFields :=
  {| description := Some "desk"; alt_description := None; likes := Some 3%Z;
     urls := urls_ex; links := links_ex; user := user_ex;
     tags := [ {| title := Some "studio" |} ] |}.
Definition p2_ex : ProductFields :=
  {| description := None; alt_description := None; likes := Some 0%Z;
     urls := urls_ex; links := links_ex; user := user_ex;
     tags := [ {| title := Some "Studio" |} ] |}.

Definition o1_ex : OrderFields string :=
  {| buyerEmail := Some "a@b.com"; products := ["p1"; "gone"];
     status := Some "CREATED" |}.

Definition db_ex : Db :=
  {| Product_coll := {[ "p2" := p2_ex; "p1" := p1_ex ]};
     Order_coll := {[ "o1" := o1_ex ]} |}.

Definition payload_ex : Product.payload :=
  {| Product.f_id := None; Product.f_description := Some "lamp";
     Product.f_alt_description := None; Product.f_likes := Some 7%Z;
     Product.f_urls := urls_ex; Product.f_links := links_ex;
     Product.f_user := user_ex;
     Product.f_tags := Some [ {| title := Some "studio" |} ] |}.

Definition payload_notags_ex : Product.payload :=
  {| Product.f_id := None; Product.f_description := Some "lamp";
     Product.f_alt_description := None; Product.f_likes := Some 7%Z;
     Product.f_urls := urls_ex; Product.f_links := links_ex;
     Product.f_user := user_ex; Product.f_tags := None |}.

(** An order stored without [status], and one with a repeated reference
    around a dangling one. *)
Definition o3_ex : OrderFields string :=
  {| buyerEmail := Some "e@f.net"; products := ["p1"; "gone"; "p2"; "p1"];
     status := None |}.

Definition db3_ex : Db :=
  {| Product_coll := Product_coll db_ex;
     Order_coll := {[ "o3" := o3_ex ]} |}.

Definition order_payload_ex : Order.payload :=
  {| Order.f_id := None; Order.f_buyerEmail := Some "c@d.org";
     Order.f_products := Some ["p2"; "p1"]; Order.f_status := None |}.

Definition o2_ex : OrderFields string :=
  {| buyerEmail := Some "c@d.org"; products := ["p2"];
     status := Some "COMPLETED" |}.

Definition db2_ex : Db :=
  {| Product_coll := Product_coll db_ex;
     Order_coll := {[ "o1" := o1_ex; "o2" := o2_ex ]} |}.

(** * Properties *)

(** ** Running a computation *)

Ltac run :=
  unfold mbind, mret, M_bind, M_ret, throw, get_db, put_db; simpl.

(** ** The query pipeline *)
Section query_facts.
Context {F : Type}.
Implicit Types (coll : gmap string F) (d : doc F) (l : list (doc F)).

#[local] Instance id_le_trans : Transitive (@Query.id_le F).
Proof. intros d1 d2 d3. unfold Query.id_le. apply transitivity. Qed.

#[local] Instance id_le_total : Total (@Query.id_le F).
Proof. intros d1 d2. unfold Query.id_le. apply total, _. Qed.

Lemma elem_of_documents coll d :
  d ∈ Query.documents coll ↔ coll !! _id d = Some (fields d).
Proof.
  unfold Query.documents. rewrite list_elem_of_fmap. split.
  - intros [[k v] [-> Hkv]]. simpl. by apply elem_of_map_to_list.
  - intros Hd. exists (_id d, fields d). split.
    + by destruct d.
    + by apply elem_of_map_to_list.
Qed.

Lemma documents_ids coll :
  _id <$> Query.documents coll = (map_to_list coll).*1.
Proof.
  unfold Query.documents. rewrite <- list_fmap_compose.
  by apply list_fmap_ext.
Qed.

Lemma NoDup_documents_ids coll : NoDup (_id <$> Query.documents coll).
Proof. rewrite documents_ids. apply NoDup_fst_map_to_list. Qed.

Lemma elem_of_find query coll d :
  d ∈ Query.find query coll ↔
  coll !! _id d = Some (fields d) ∧ query d = true.
Proof.
  unfold Query.find.
  rewrite list_elem_of_In, filter_In, <- list_elem_of_In.
  by rewrite elem_of_documents.
Qed.

Lemma NoDup_filter_ids query l :
  NoDup (_id <$> l) → NoDup (_id <$> List.filter query l).
Proof.
  induction l as [|d l IH]; simpl; [done|].
  intros [Hd Hl]%NoDup_cons. destruct (query d); simpl; [|by auto].
  apply NoDup_cons. split; [|by auto].
  intros (d' & Hid & Hin)%list_elem_of_fmap. apply Hd.
  apply list_elem_of_fmap. exists d'. split; [done|].
  apply list_elem_of_In in Hin. apply filter_In in Hin as [Hin _].
  by apply list_elem_of_In.
Qed.

Lemma find_all coll : Query.find (λ _, true) coll = Query.documents coll.
Proof.
  unfold Query.find. induction (Query.documents coll) as [|d l IH]; simpl;
    [done|by rewrite IH].
Qed.

Lemma sort_Permutation l : Query.sort l ≡ₚ l.
Proof. apply merge_sort_Permutation. Qed.

Lemma sort_StronglySorted l : StronglySorted Query.id_le (Query.sort l).
Proof. apply (StronglySorted_merge_sort _). Qed.

Lemma limit_length {A} n (l : list A) : 0 < n → length (Query.limit n l) ≤ n.
Proof.
  destruct n as [|n]; [lia|]. intros _. unfold Query.limit.
  rewrite length_take. lia.
Qed.

End query_facts.

(** ** Products.list *)

Lemma elemMatch_title_spec t d :
  Products.elemMatch_title t d = true ↔ has_tag t (fields d).
Proof.
  unfold Products.elemMatch_title, has_tag. rewrite existsb_exists.
  split; intros (x & Hx & Ht); exists x.
  - apply bool_decide_eq_true in Ht. by rewrite list_elem_of_In.
  - rewrite <- list_elem_of_In. split; [done|]. by apply bool_decide_eq_true.
Qed.

Lemma truthy_Some s : truthy (Some s) = true ↔ s ≠ "".
Proof.
  simpl. rewrite negb_true_iff. apply String.eqb_neq.
Qed.

(** C5, as the code has it.  The candidates of [Products.list] are the
    stored products, restricted, when [tag] is a non-empty string, to those
    with a tag entry whose title is exactly that string; they are ordered by
    ascending identifier without repetition.  The result is the candidates
    after the first [offset], cut to the first [limit] of them when [limit]
    is positive and not cut at all when [limit] is [0]. *)
Theorem Products_list_page (db : Db) (opts : Products.options) :
  let o := default 0 (Products.offset opts) in
  let n := default 25 (Products.limit opts) in
  ∃ candidates page,
    Products.list opts db = (Ok page, db)
    ∧ StronglySorted (λ d1 d2, String.le (_id d1) (_id d2)) candidates
    ∧ NoDup (_id <$> candidates)
    ∧ (∀ d, d ∈ candidates ↔
         Product_coll db !! _id d = Some (fields d)
         ∧ ∀ t, Products.tag opts = Some t → t ≠ "" → has_tag t (fields d))
    ∧ (0 < n → page = take n (drop o candidates) ∧ length page ≤ n)
    ∧ (n = 0 → page = drop o candidates).
Proof.
  intros o n.
  set (query := if truthy (Products.tag opts)
                then Products.elemMatch_title (default "" (Products.tag opts))
                else λ _, true).
  exists (Query.sort (Query.find query (Product_coll db))),
         (Query.limit n (Query.skip o
            (Query.sort (Query.find query (Product_coll db))))).
  split; [reflexivity|]. split; [apply sort_StronglySorted|].
  split.
  { rewrite sort_Permutation. apply NoDup_filter_ids, NoDup_documents_ids. }
  split.
  { intros d. rewrite sort_Permutation, elem_of_find.
    apply and_iff_compat_l. unfold query.
    destruct (Products.tag opts) as [t|] eqn:Htag.
    - destruct (truthy (Some t)) eqn:Ht; simpl.
      + rewrite elemMatch_title_spec. apply truthy_Some in Ht.
        split; [by intros ? ? [= <-] _|]. intros H. by apply H.
      + split; [|done]. intros _ t' [= <-] Hne.
        apply truthy_Some in Hne. congruence.
    - simpl. split; [|done]. by intros _ t' [=]. }
  split.
  - intros Hn. split; [|by apply limit_length].
    destruct n as [|n']; [lia|done].
  - by intros ->.
Qed.

(** C5 as stated fails twice on the example state: a [limit] of [0]
    returns two products, and the tag [""] returns a product none of whose
    tags has the title [""]. *)
Lemma Products_list_counterexample :
  (∃ page,
      Products.list {| Products.offset := Some 0; Products.limit := Some 0;
                       Products.tag := None |} db_ex = (Ok page, db_ex)
      ∧ ¬ length page ≤ 0)
  ∧ (∃ page d,
      Products.list {| Products.offset := None; Products.limit := None;
                       Products.tag := Some "" |} db_ex = (Ok page, db_ex)
      ∧ d ∈ page ∧ ¬ has_tag "" (fields d)).
Proof.
  split.
  - eexists. split; [vm_compute; reflexivity|]. simpl. lia.
  - exists [Doc "p1" p1_ex; Doc "p2" p2_ex], (Doc "p1" p1_ex).
    split; [vm_compute; reflexivity|]. split; [by left|].
    intros (x & Hx & Ht). simpl in Hx.
    apply list_elem_of_singleton in Hx as ->. discriminate.
Qed.

(** The tag match is exact: on the example state, ["studio"] selects the
    product tagged ["studio"] and not the one tagged ["Studio"]. *)
Example Products_list_studio :
  (Products.list {| Products.offset := None; Products.limit := None;
                    Products.tag := Some "studio" |} db_ex).1
  = Ok [Doc "p1" p1_ex].
Proof. vm_compute. reflexivity. Qed.

(** ** Empty-string filters *)

(** C10.  An empty-string [tag], [productId] or [status] selects the same
    branch as a missing one: the listing equals the one without that
    parameter, and with every filter empty it is the page of the whole
    collection. *)
Theorem empty_filter_is_absent (db : Db) (o l : option nat) :
  Products.list {| Products.offset := o; Products.limit := l;
                   Products.tag := Some "" |} db
  = Products.list {| Products.offset := o; Products.limit := l;
                     Products.tag := None |} db
  ∧ Products.list {| Products.offset := o; Products.limit := l;
                     Products.tag := Some "" |} db
    = (Ok (Query.limit (default 25 l) (Query.skip (default 0 o)
             (Query.sort (Query.documents (Product_coll db))))), db)
  ∧ (∀ s, Orders.list {| Orders.offset := o; Orders.limit := l;
                         Orders.productId := Some ""; Orders.status := s |} db
          = Orders.list {| Orders.offset := o; Orders.limit := l;
                           Orders.productId := None; Orders.status := s |} db)
  ∧ (∀ p, Orders.list {| Orders.offset := o; Orders.limit := l;
                         Orders.productId := p; Orders.status := Some "" |} db
          = Orders.list {| Orders.offset := o; Orders.limit := l;
                           Orders.productId := p; Orders.status := None |} db)
  ∧ Orders.list {| Orders.offset := o; Orders.limit := l;
                   Orders.productId := Some ""; Orders.status := Some "" |} db
    = (Ok (Order.hydrate <$>
             Query.limit (default 25 l) (Query.skip (default 0 o)
               (Query.sort (Query.documents (Order_coll db))))), db).
Proof.
  split; [reflexivity|]. split.
  { unfold Products.list. run. by rewrite find_all. }
  split; [reflexivity|]. split; [reflexivity|].
  unfold Orders.list. run.
  change (Query.find _ (Order_coll db))
    with (Query.find (λ _ : doc (OrderFields string), true) (Order_coll db)).
  by rewrite find_all.
Qed.

(** ** destroy *)

Lemma Db_eta (db : Db) :
  {| Product_coll := Product_coll db; Order_coll := Order_coll db |} = db.
Proof. by destruct db. Qed.

(** C9.  [destroy] never throws, whether or not a record has the
    identifier; afterwards no record has it, [get] answers [null], the other
    records are as before, and when none had it the database is unchanged. *)
Theorem destroy_then_get_null (db : Db) (id : string) :
  (∃ r db',
      Products.destroy id db = (Ok r, db')
      ∧ Product_coll db' !! id = None
      ∧ Products.get id db' = (Ok None, db')
      ∧ (∀ j, j ≠ id → Product_coll db' !! j = Product_coll db !! j)
      ∧ (Product_coll db !! id = None → db' = db))
  ∧ (∃ db',
      Orders.destroy id db = (Ok tt, db')
      ∧ Order_coll db' !! id = None
      ∧ Orders.get id db' = (Ok None, db')
      ∧ (∀ j, j ≠ id → Order_coll db' !! j = Order_coll db !! j)
      ∧ (Order_coll db !! id = None → db' = db)).
Proof.
  split.
  - eexists _, _. split; [reflexivity|]. simpl.
    split; [apply lookup_delete_eq|].
    split.
    { unfold Products.get, Product.findById. run.
      by rewrite lookup_delete_eq. }
    split; [intros j Hj; by apply lookup_delete_ne|].
    intros Hnone. rewrite delete_id by done. apply Db_eta.
  - eexists. split; [reflexivity|]. simpl.
    split; [apply lookup_delete_eq|].
    split.
    { unfold Orders.get, Order.findById. run.
      by rewrite lookup_delete_eq. }
    split; [intros j Hj; by apply lookup_delete_ne|].
    intros Hnone. rewrite delete_id by done. apply Db_eta.
Qed.

(** ** The delete handlers *)

(** C4, as the code has it.  [deleteOrder] answers [{success: true}].
    [deleteProduct] answers with what [Products.destroy] resolved to, the
    outcome of [deleteOne]: an acknowledgement and the number of documents
    removed, [1] when a product had the identifier and [0] otherwise. *)
Theorem delete_handlers_body (db : Db) (req : Api.request) :
  (∃ db', Api.deleteOrder req db = (Ok success_body, db'))
  ∧ (∃ db',
      Api.deleteProduct req db
      = (Ok (Api.JObj
               [("acknowledged", Api.JBool true);
                ("deletedCount",
                  Api.JNum (match Product_coll db !! Api.params_id req with
                            | Some _ => 1
                            | None => 0
                            end))]), db')).
Proof.
  split; eexists.
  - reflexivity.
  - unfold Api.deleteProduct, Products.destroy, Product.deleteOne. run.
    unfold Api.DeleteResult_toJSON. simpl.
    by destruct (Product_coll db !! Api.params_id req).
Qed.

(** C4 as stated fails for the product handler: deleting the stored product
    ["p1"] answers [{acknowledged: true, deletedCount: 1}]. *)
Lemma deleteProduct_body_counterexample :
  (Api.deleteProduct {| Api.params_id := "p1" |} db_ex).1
  = Ok (Api.JObj [("acknowledged", Api.JBool true);
                  ("deletedCount", Api.JNum 1)])
  ∧ (Api.deleteProduct {| Api.params_id := "p1" |} db_ex).1 ≠ Ok success_body.
Proof. split; [vm_compute; reflexivity|]. vm_compute. discriminate. Qed.

(** ** edit *)

Lemma Products_edit_absent (db : Db) (id : string) (c : Products.change) :
  Product_coll db !! id = None → Products.edit id c db = (Throw TypeError, db).
Proof.
  intros Hnone. unfold Products.edit, Products.get, Product.findById. run.
  by rewrite Hnone.
Qed.

Lemma Orders_edit_absent (db : Db) (id : string) (c : Orders.change) :
  Order_coll db !! id = None → Orders.edit id c db = (Throw TypeError, db).
Proof.
  intros Hnone. unfold Orders.edit, Orders.get, Order.findById. run.
  by rewrite Hnone.
Qed.

(** C2, absent target.  [edit] on an identifier that no record has throws
    the [TypeError] of using [null] as the loaded record; the database is
    left as it was. *)
Theorem edit_absent_TypeError (db : Db) (id : string) :
  (Product_coll db !! id = None →
     ∀ c, Products.edit id c db = (Throw TypeError, db))
  ∧ (Order_coll db !! id = None →
     ∀ c, Orders.edit id c db = (Throw TypeError, db)).
Proof.
  split; intros Hnone c.
  - by apply Products_edit_absent.
  - by apply Orders_edit_absent.
Qed.

Lemma edit_absent_TypeError_witness :
  Products.edit "p9" {| Products.c_description := None;
                        Products.c_alt_description := None;
                        Products.c_likes := Some 5%Z;
                        Products.c_urls := None; Products.c_links := None;
                        Products.c_user := None; Products.c_tags := None |}
    db_ex = (Throw TypeError, db_ex)
  ∧ Orders.edit "o9" {| Orders.c_buyerEmail := None;
                        Orders.c_products := None;
                        Orders.c_status := Some "PENDING" |}
      db_ex = (Throw TypeError, db_ex).
Proof.
  destruct (edit_absent_TypeError db_ex "p9") as [HP _].
  destruct (edit_absent_TypeError db_ex "o9") as [_ HO].
  split; [apply HP|apply HO]; reflexivity.
Defined.

Lemma alter_lookup_insert {V} (f : V → V) (m : gmap string V) (k : string)
    (w : V) :
  m !! k = Some w → alter f k m = <[k := f w]> m.
Proof.
  intros Hk. apply map_eq. intros j. destruct (decide (k = j)) as [<-|Hne].
  - by rewrite lookup_alter_eq, lookup_insert_eq, Hk.
  - by rewrite lookup_alter_ne, lookup_insert_ne.
Qed.

Lemma Products_get_run (db : Db) (id : string) :
  Products.get id db = (Ok (Doc id <$> Product_coll db !! id), db).
Proof. reflexivity. Qed.

Lemma Product_save_run (db : Db) (d : ProductDoc) (p : ProductFields) :
  Product_coll db !! _id d = Some p →
  Product.save d db
  = if Product.validate (fields d)
    then (Ok d, {| Product_coll := <[_id d := fields d]> (Product_coll db);
                   Order_coll := Order_coll db |})
    else (Throw ValidationError, db).
Proof.
  intros Hp. unfold Product.save.
  destruct (Product.validate (fields d)); run; [|done].
  by rewrite (alter_lookup_insert _ _ _ p).
Qed.

(** C2, present target, Product service: the keys of the change object are
    written over the loaded record, the result is validated, and when it
    passes it replaces the stored record and is returned; when it fails
    nothing is written. *)
Lemma Products_edit_present (db : Db) (id : string) (p : ProductFields)
    (c : Products.change) :
  Product_coll db !! id = Some p →
  let p' := Products.assign c (Doc id p) in
  Products.edit id c db
  = if Product.validate (fields p')
    then (Ok p', {| Product_coll := <[id := fields p']> (Product_coll db);
                    Order_coll := Order_coll db |})
    else (Throw ValidationError, db).
Proof.
  intros Hp p'. unfold Products.edit, mbind, M_bind.
  rewrite Products_get_run, Hp.
  change (Doc id <$> Some p) with (Some (Doc id p)). cbv beta iota.
  fold p'. by rewrite (Product_save_run db p' p).
Qed.

(** C7.  [edit(id, {likes: n})] on a stored product leaves the orders and
    every other product alone, and the record stored under [id] afterwards
    agrees with the prior one on every field but [likes]; when the prior
    record satisfies the schema the edit succeeds, sets [likes] to [n] and
    returns the stored record. *)
Theorem edit_likes_only (db : Db) (id : string) (p : ProductFields) (n : Z) :
  Product_coll db !! id = Some p →
  ∃ r db' p',
    Products.edit id (likes_only n) db = (r, db')
    ∧ Order_coll db' = Order_coll db
    ∧ (∀ j, j ≠ id → Product_coll db' !! j = Product_coll db !! j)
    ∧ Product_coll db' !! id = Some p'
    ∧ description p' = description p
    ∧ alt_description p' = alt_description p
    ∧ urls p' = urls p
    ∧ links p' = links p
    ∧ user p' = user p
    ∧ tags p' = tags p
    ∧ (Product.validate p = true →
         likes p' = Some n ∧ r = Ok (Doc id p')).
Proof.
  intros Hp. rewrite (Products_edit_present db id p _ Hp). simpl.
  destruct (Product.validate _) eqn:Hv.
  - eexists _, _, _. split; [reflexivity|]. simpl.
    split; [done|]. split; [by intros j Hj; rewrite lookup_insert_ne|].
    split; [apply lookup_insert_eq|]. by repeat split.
  - exists (Throw ValidationError), db, p.
    repeat (split; [done|]). intros Hvp.
    unfold Product.validate in *. simpl in Hv.
    destruct (likes p); simpl in Hvp; [congruence|done].
Qed.

Lemma edit_likes_only_witness :
  ∃ r db' p',
    Products.edit "p1" (likes_only 5) db_ex = (r, db')
    ∧ Order_coll db' = Order_coll db_ex
    ∧ (∀ j, j ≠ "p1" → Product_coll db' !! j = Product_coll db_ex !! j)
    ∧ Product_coll db' !! "p1" = Some p'
    ∧ description p' = description p1_ex
    ∧ alt_description p' = alt_description p1_ex
    ∧ urls p' = urls p1_ex
    ∧ links p' = links p1_ex
    ∧ user p' = user p1_ex
    ∧ tags p' = tags p1_ex
    ∧ (Product.validate p1_ex = true →
         likes p' = Some 5%Z ∧ r = Ok (Doc "p1" p'))
.
Proof. apply (edit_likes_only db_ex "p1" p1_ex 5). reflexivity. Defined.

(** On the example state the edit succeeds and the stored [likes] is [5]. *)
Example edit_likes_only_runs :
  ∃ db', Products.edit "p1" (likes_only 5) db_ex
         = (Ok (Doc "p1" {| description := Some "desk";
                            alt_description := None; likes := Some 5%Z;
                            urls := urls_ex; links := links_ex;
                            user := user_ex;
                            tags := [ {| title := Some "studio" |} ] |}), db')
         ∧ likes <$> Product_coll db' !! "p1" = Some (Some 5%Z)
         ∧ Product_coll db' !! "p2" = Some p2_ex.
Proof. eexists. split; [vm_compute; reflexivity|]. by vm_compute. Qed.

(** ** Orders: loading, saving, editing *)

Lemma Orders_get_run (db : Db) (id : string) :
  Orders.get id db = (Ok (loaded db id <$> Order_coll db !! id), db).
Proof.
  unfold Orders.get, Order.findById. run.
  by destruct (Order_coll db !! id).
Qed.

Lemma Order_save_run (db : Db) (d : OrderDoc) (o : OrderFields string) :
  Order_coll db !! _id (order d) = Some o →
  Order.save d db
  = if Order.validate (fields (order d))
    then (Ok (Order.saved d),
          {| Product_coll := Product_coll db;
             Order_coll :=
               <[_id (order d) := Order.write_modified d o]> (Order_coll db) |})
    else (Throw ValidationError, db).
Proof.
  intros Ho. unfold Order.save.
  destruct (Order.validate (fields (order d))); run; [|done].
  by rewrite (alter_lookup_insert _ _ _ o).
Qed.

Lemma assign_id (c : Orders.change) (d : OrderDoc) :
  _id (order (Orders.assign c d)) = _id (order d).
Proof. by destruct c as [[?|] [?|] [?|]]. Qed.

Lemma Orders_edit_present (db : Db) (id : string) (o : OrderFields string)
    (c : Orders.change) :
  Order_coll db !! id = Some o →
  let d := Orders.assign c (loaded db id o) in
  Orders.edit id c db
  = if Order.validate (fields (order d))
    then (Ok (Order.saved d),
          {| Product_coll := Product_coll db;
             Order_coll := <[id := Order.write_modified d o]> (Order_coll db) |})
    else (Throw ValidationError, db).
Proof.
  intros Ho d. unfold Orders.edit, mbind, M_bind.
  rewrite Orders_get_run, Ho.
  change (loaded db id <$> Some o) with (Some (loaded db id o)).
  cbv beta iota. fold d.
  rewrite (Order_save_run db d o) by (unfold d; by rewrite assign_id).
  unfold d at 3. by rewrite assign_id.
Qed.

Lemma ref_id_Id (l : list string) : Order.ref_id <$> (Id <$> l) = l.
Proof. induction l as [|x l IH]; [done|]. simpl. by f_equal. Qed.

(** C2, present target, Order service: what [save] writes is the stored
    record with the keys of the change object replaced and a missing status
    filled with the schema default, whatever [populate] made of the
    references in memory. *)
Lemma Orders_edit_stored (db : Db) (id : string) (o : OrderFields string)
    (c : Orders.change) :
  Order.write_modified (Orders.assign c (loaded db id o)) o
  = {| buyerEmail := from_option Some (buyerEmail o) (Orders.c_buyerEmail c);
       products := default (products o) (Orders.c_products c);
       status := from_option Some (Some (default "CREATED" (status o)))
                   (Orders.c_status c) |}.
Proof.
  destruct o as [e ps [st|]], c as [[e'|] [ps'|] [st'|]];
    unfold Order.write_modified; simpl; by rewrite ?ref_id_Id.
Qed.

Lemma validate_bad_status (o : OrderFields ref) (s : string) :
  status o = Some s → s ∉ Order.status_enum → Order.validate o = false.
Proof.
  intros Hs Hnot. unfold Order.validate. rewrite Hs. simpl.
  rewrite bool_decide_eq_false_2 by done. apply andb_false_r.
Qed.

(** ** Order status *)

(** C1.  A status outside [CREATED], [PENDING], [COMPLETED] is rejected by
    validation on both write paths and nothing is written: [create] with
    such a status, and [edit] of a stored order with such a status, throw
    [ValidationError] and leave the database, hence the stored status, as it
    was; [edit] with such a status never changes the database. *)
Theorem order_status_enum (s : string) :
  s ∉ Order.status_enum →
  (∀ db cuid f,
      Order.f_status f = Some s →
      Orders.create cuid f db = (Throw ValidationError, db))
  ∧ (∀ db id c o,
      Orders.c_status c = Some s →
      Order_coll db !! id = Some o →
      Orders.edit id c db = (Throw ValidationError, db)
      ∧ status <$> Order_coll (Orders.edit id c db).2 !! id = Some (status o))
  ∧ (∀ db id c,
      Orders.c_status c = Some s →
      ∃ e, Orders.edit id c db = (Throw e, db)).
Proof.
  intros Hs.
  assert (∀ db id c o, Orders.c_status c = Some s →
            Order_coll db !! id = Some o →
            Orders.edit id c db = (Throw ValidationError, db)) as Hedit.
  { intros db id c o Hc Ho. rewrite (Orders_edit_present db id o c Ho).
    cbv zeta. rewrite (validate_bad_status _ s); [done| |done].
    unfold Orders.assign. by rewrite Hc. }
  split; [|split].
  - intros db cuid f Hf. unfold Orders.create, Order.save_new, mbind, M_bind.
    rewrite (validate_bad_status _ s); [done| |done].
    simpl. by rewrite Hf.
  - intros db id c o Hc Ho. rewrite (Hedit db id c o Hc Ho). simpl.
    split; [done|]. by rewrite Ho.
  - intros db id c Hc. destruct (Order_coll db !! id) as [o|] eqn:Ho.
    + exists ValidationError. by apply (Hedit db id c o).
    + exists TypeError. by apply Orders_edit_absent.
Qed.

Lemma order_status_enum_witness :
  Orders.create "c1" {| Order.f_id := None; Order.f_buyerEmail := Some "a@b.com";
                        Order.f_products := Some ["p1"];
                        Order.f_status := Some "BOGUS" |} db_ex
  = (Throw ValidationError, db_ex)
  ∧ Orders.edit "o1" {| Orders.c_buyerEmail := None; Orders.c_products := None;
                        Orders.c_status := Some "BOGUS" |} db_ex
    = (Throw ValidationError, db_ex).
Proof.
  assert ("BOGUS" ∉ Order.status_enum) as Hs
    by (apply (bool_decide_eq_false_1 _); vm_compute; reflexivity).
  destruct (order_status_enum "BOGUS" Hs) as (Hcreate & Hedit & _).
  split.
  - apply Hcreate. reflexivity.
  - apply (Hedit db_ex "o1" _ o1_ex); reflexivity.
Defined.

(** ** Orders.create *)

Lemma Orders_create_run (db : Db) (cuid : string) (f : Order.payload) :
  let id := default cuid (Order.f_id f) in
  let o := {| buyerEmail := Order.f_buyerEmail f;
              products := default [] (Order.f_products f);
              status := Some (default "CREATED" (Order.f_status f)) |} in
  Orders.create cuid f db
  = if Order.validate (fields (order (Order.new cuid f)))
    then match Order_coll db !! id with
         | Some _ => (Throw MongoServerError, db)
         | None =>
             (Ok (loaded db id o),
              {| Product_coll := Product_coll db;
                 Order_coll := <[id := o]> (Order_coll db) |})
         end
    else (Throw ValidationError, db).
Proof.
  intros id o. unfold Orders.create, Order.save_new, mbind, M_bind.
  destruct (Order.validate (fields (order (Order.new cuid f)))); [|done].
  run. fold id. destruct (Order_coll db !! id); [done|].
  unfold Order.depopulate, loaded. simpl. by rewrite ref_id_Id.
Qed.

(** C3, the parts that hold: without [buyerEmail] the order is rejected. *)
Lemma Orders_create_missing_buyerEmail (db : Db) (cuid : string)
    (f : Order.payload) :
  Order.f_buyerEmail f = None →
  Orders.create cuid f db = (Throw ValidationError, db).
Proof.
  intros He. rewrite Orders_create_run. cbv zeta.
  unfold Order.validate. simpl. by rewrite He.
Qed.

(** C3, the parts that hold: an order that passes validation is stored
    under a fresh identifier and returned, with status [CREATED] when the
    payload has none. *)
Lemma Orders_create_valid (db : Db) (cuid : string) (f : Order.payload) :
  Order.validate (fields (order (Order.new cuid f))) = true →
  Order_coll db !! default cuid (Order.f_id f) = None →
  ∃ d db',
    Orders.create cuid f db = (Ok d, db')
    ∧ _id (order d) = default cuid (Order.f_id f)
    ∧ buyerEmail (fields (order d)) = Order.f_buyerEmail f
    ∧ status (fields (order d)) = Some (default "CREATED" (Order.f_status f))
    ∧ Order_coll db' !! _id (order d)
      = Some {| buyerEmail := Order.f_buyerEmail f;
                products := default [] (Order.f_products f);
                status := Some (default "CREATED" (Order.f_status f)) |}.
Proof.
  intros Hv Hfresh. rewrite Orders_create_run. cbv zeta.
  rewrite Hv, Hfresh. eexists _, _. split; [reflexivity|]. simpl.
  repeat (split; [done|]). apply lookup_insert_eq.
Qed.

(** C3, empty [products].  An order with a buyer e-mail and an empty
    [products] array passes validation: it is stored and returned. *)
Theorem Orders_create_empty_products (db : Db) (cuid email : string) :
  email ≠ "" →
  Order_coll db !! cuid = None →
  Orders.create cuid {| Order.f_id := None; Order.f_buyerEmail := Some email;
                        Order.f_products := Some []; Order.f_status := None |}
    db
  = (Ok {| order := Doc cuid {| buyerEmail := Some email; products := [];
                                status := Some "CREATED" |};
           modified := [] |},
     {| Product_coll := Product_coll db;
        Order_coll := <[cuid := {| buyerEmail := Some email; products := [];
                                   status := Some "CREATED" |}]>
                        (Order_coll db) |}).
Proof.
  intros He Hfresh. rewrite Orders_create_run. cbv zeta. simpl.
  rewrite Hfresh. unfold Order.validate. simpl.
  apply String.eqb_neq in He. by rewrite He.
Qed.

Lemma Orders_create_empty_products_witness :
  Orders.create "c1" {| Order.f_id := None; Order.f_buyerEmail := Some "a@b.com";
                        Order.f_products := Some []; Order.f_status := None |}
    db_ex
  = (Ok {| order := Doc "c1" {| buyerEmail := Some "a@b.com"; products := [];
                                status := Some "CREATED" |};
           modified := [] |},
     {| Product_coll := Product_coll db_ex;
        Order_coll := <[ "c1" := {| buyerEmail := Some "a@b.com";
                                    products := [];
                                    status := Some "CREATED" |}]>
                        (Order_coll db_ex) |}).
Proof.
  apply (Orders_create_empty_products db_ex "c1" "a@b.com");
    [discriminate|reflexivity].
Defined.

(** ** Expansion of product references *)

Lemma populate_expands (db : Db) (ids : list string) :
  expands db ids (omap (Order.resolve db) (Id <$> ids)).
Proof.
  induction ids as [|pid ids IH]; [constructor|]. simpl.
  destruct (Product_coll db !! pid) as [p|] eqn:Hp; simpl.
  - by apply expands_found.
  - by apply expands_dangling.
Qed.

(** The view of a list of references is unique. *)
Lemma expands_unique (db : Db) (ids : list string) (refs1 refs2 : list ref) :
  expands db ids refs1 → expands db ids refs2 → refs1 = refs2.
Proof.
  intros H1. revert refs2.
  induction H1 as [|pid p ids refs1 Hp _ IH|pid ids refs1 Hp _ IH];
    intros refs2 H2; inversion H2; subst; try congruence.
  - assert (p = p0) as -> by congruence. f_equal. by apply IH.
  - by apply IH.
Qed.

(** When every reference names a stored product, the view has the record
    of the i-th reference at position i. *)
Lemma expands_Forall2 (db : Db) (ids : list string) (refs : list ref) :
  expands db ids refs →
  Forall (λ pid, is_Some (Product_coll db !! pid)) ids →
  Forall2 (λ pid r, ∃ p, Product_coll db !! pid = Some p
                         ∧ r = Populated (Doc pid p)) ids refs.
Proof.
  induction 1 as [|pid p ids refs Hp _ IH|pid ids refs Hp _ IH];
    intros Hall; [constructor|..];
    apply Forall_cons in Hall as [Hsome Hall].
  - constructor; [by exists p|by apply IH].
  - rewrite Hp in Hsome. by destruct Hsome.
Qed.

(** C8.  [Orders.get] on a stored order returns the order with [products]
    expanded, in order, into the full records of the products that the
    references name, and with status [CREATED] when none is stored;
    [Orders.create] on a payload that passes validation under a fresh
    identifier returns the order expanded in the same way, and [get]
    returns it again; an order created without [status] is returned, stored
    and read back with status [CREATED]. *)
Theorem order_products_expanded (db : Db) :
  (∀ id o,
      Order_coll db !! id = Some o →
      ∃ d, Orders.get id db = (Ok (Some d), db)
           ∧ _id (order d) = id
           ∧ buyerEmail (fields (order d)) = buyerEmail o
           ∧ status (fields (order d)) = Some (default "CREATED" (status o))
           ∧ expands db (products o) (products (fields (order d))))
  ∧ (∀ cuid f,
      Order.validate (fields (order (Order.new cuid f))) = true →
      Order_coll db !! default cuid (Order.f_id f) = None →
      ∃ d db',
        Orders.create cuid f db = (Ok d, db')
        ∧ expands db (default [] (Order.f_products f))
            (products (fields (order d)))
        ∧ Orders.get (_id (order d)) db' = (Ok (Some d), db')
        ∧ (Order.f_status f = None →
           status (fields (order d)) = Some "CREATED"
           ∧ status <$> Order_coll db' !! _id (order d)
             = Some (Some "CREATED"))).
Proof.
  split.
  - intros id o Ho. exists (loaded db id o).
    rewrite Orders_get_run, Ho. repeat (split; [done|]).
    apply populate_expands.
  - intros cuid f Hv Hfresh. rewrite Orders_create_run. cbv zeta.
    rewrite Hv, Hfresh. eexists _, _. split; [reflexivity|]. simpl.
    split; [apply populate_expands|]. split.
    + rewrite Orders_get_run. simpl. by rewrite lookup_insert_eq.
    + intros ->. split; [done|]. by rewrite lookup_insert_eq.
Qed.

Lemma order_products_expanded_witness :
  (∃ d, Orders.get "o3" db3_ex = (Ok (Some d), db3_ex)
        ∧ _id (order d) = "o3"
        ∧ buyerEmail (fields (order d)) = Some "e@f.net"
        ∧ status (fields (order d)) = Some "CREATED"
        ∧ expands db3_ex ["p1"; "gone"; "p2"; "p1"]
            (products (fields (order d))))
  ∧ (∃ d db',
        Orders.create "c1" {| Order.f_id := None;
                              Order.f_buyerEmail := Some "a@b.com";
                              Order.f_products := Some ["p1"];
                              Order.f_status := None |} db_ex = (Ok d, db')
        ∧ expands db_ex ["p1"] (products (fields (order d)))
        ∧ Orders.get (_id (order d)) db' = (Ok (Some d), db')
        ∧ status (fields (order d)) = Some "CREATED").
Proof.
  destruct (order_products_expanded db3_ex) as [Hget _].
  destruct (order_products_expanded db_ex) as [_ Hcreate].
  split.
  - apply (Hget "o3" o3_ex). reflexivity.
  - destruct (Hcreate "c1" {| Order.f_id := None;
                              Order.f_buyerEmail := Some "a@b.com";
                              Order.f_products := Some ["p1"];
                              Order.f_status := None |})
      as (d & db' & Hrun & Hexp & Hread & Hstatus); [reflexivity..|].
    exists d, db'. destruct (Hstatus eq_refl) as [Hs _].
    exact (conj Hrun (conj Hexp (conj Hread Hs))).
Defined.

(** The order of the specification's example: created from
    [{buyerEmail: "a@b.com", products: ["p1"]}], it comes back with status
    [CREATED] and the full record of ["p1"]. *)
Example Orders_create_p1 :
  (Orders.create "c1" {| Order.f_id := None;
                         Order.f_buyerEmail := Some "a@b.com";
                         Order.f_products := Some ["p1"];
                         Order.f_status := None |} db_ex).1
  = Ok {| order := Doc "c1" {| buyerEmail := Some "a@b.com";
                               products := [Populated (Doc "p1" p1_ex)];
                               status := Some "CREATED" |};
          modified := [] |}.
Proof. vm_compute. reflexivity. Qed.

(** A reference that names no product has no entry in the view. *)
Example Orders_get_dangling :
  (Orders.get "o1" db_ex).1
  = Ok (Some {| order := Doc "o1" {| buyerEmail := Some "a@b.com";
                                      products := [Populated (Doc "p1" p1_ex)];
                                      status := Some "CREATED" |};
                modified := [] |}).
Proof. vm_compute. reflexivity. Qed.

(** An order stored without status is read with status [CREATED]; its view
    keeps the order and the repetitions of the references that resolve. *)
Example Orders_get_statusless :
  (Orders.get "o3" db3_ex).1
  = Ok (Some {| order := Doc "o3" {| buyerEmail := Some "e@f.net";
                                      products :=
                                        [Populated (Doc "p1" p1_ex);
                                         Populated (Doc "p2" p2_ex);
                                         Populated (Doc "p1" p1_ex)];
                                      status := Some "CREATED" |};
                modified := [PStatus] |}).
Proof. vm_compute. reflexivity. Qed.

(** The view is a sequence, not a set: the same records in another order
    are not the view. *)
Example expands_keeps_order :
  expands db_ex ["p1"; "gone"; "p2"]
    [Populated (Doc "p1" p1_ex); Populated (Doc "p2" p2_ex)]
  ∧ ¬ expands db_ex ["p1"; "gone"; "p2"]
        [Populated (Doc "p2" p2_ex); Populated (Doc "p1" p1_ex);
         Populated (Doc "p1" p1_ex)].
Proof.
  assert (expands db_ex ["p1"; "gone"; "p2"]
            [Populated (Doc "p1" p1_ex); Populated (Doc "p2" p2_ex)])
    as Hview by apply (populate_expands db_ex ["p1"; "gone"; "p2"]).
  split; [exact Hview|]. intros Hbad.
  by pose proof (expands_unique _ _ _ _ Hview Hbad).
Qed.

(** ** Products.create *)

Lemma Products_create_run (db : Db) (cuid : string) (f : Product.payload) :
  let d := Product.new cuid f in
  Products.create cuid f db
  = if Product.validate (fields d)
    then match Product_coll db !! _id d with
         | Some _ => (Throw MongoServerError, db)
         | None => (Ok d, {| Product_coll := <[_id d := fields d]> (Product_coll db);
                             Order_coll := Order_coll db |})
         end
    else (Throw ValidationError, db).
Proof.
  cbv zeta. unfold Products.create, Product.save_new.
  generalize (Product.new cuid f) as d. intros d.
  destruct (Product.validate (fields d)); run; [|done].
  by destruct (Product_coll db !! _id d).
Qed.

(** C6, as the code has it.  For a payload that satisfies the schema and
    an identifier not yet in the collection (the payload's [_id], or the
    generated one when the payload has none), [create] succeeds, and [get]
    on the identifier of the created record returns that record: on its
    schema paths it has the values of the payload, except that [tags] is
    the empty sequence when the payload has none, and its identifier is the
    generated one when the payload brought none. *)
Theorem create_then_get (db : Db) (cuid : string) (f : Product.payload) :
  Product.validate (fields (Product.new cuid f)) = true →
  Product_coll db !! default cuid (Product.f_id f) = None →
  ∃ d db',
    Products.create cuid f db = (Ok d, db')
    ∧ Products.get (_id d) db' = (Ok (Some d), db')
    ∧ _id d = default cuid (Product.f_id f)
    ∧ (Product.f_id f = None → _id d = cuid)
    ∧ description (fields d) = Product.f_description f
    ∧ alt_description (fields d) = Product.f_alt_description f
    ∧ likes (fields d) = Product.f_likes f
    ∧ urls (fields d) = Product.f_urls f
    ∧ links (fields d) = Product.f_links f
    ∧ user (fields d) = Product.f_user f
    ∧ tags (fields d) = default [] (Product.f_tags f).
Proof.
  intros Hv Hfresh. rewrite Products_create_run. cbv zeta.
  rewrite Hv. change (_id (Product.new cuid f))
    with (default cuid (Product.f_id f)).
  rewrite Hfresh. eexists _, _. split; [reflexivity|].
  split.
  { rewrite Products_get_run. simpl. by rewrite lookup_insert_eq. }
  split; [done|]. split; [|by repeat split].
  intros Hnone. simpl. by rewrite Hnone.
Qed.

Lemma create_then_get_witness :
  ∃ d db',
    Products.create "p3" payload_ex db_ex = (Ok d, db')
    ∧ Products.get (_id d) db' = (Ok (Some d), db')
    ∧ _id d = "p3"
    ∧ description (fields d) = Some "lamp"
    ∧ alt_description (fields d) = None
    ∧ likes (fields d) = Some 7%Z
    ∧ urls (fields d) = urls_ex
    ∧ links (fields d) = links_ex
    ∧ user (fields d) = user_ex
    ∧ tags (fields d) = [ {| title := Some "studio" |} ].
Proof.
  destruct (create_then_get db_ex "p3" payload_ex)
    as (d & db' & Hrun & Hread & Hid & _ & Hfields); [reflexivity..|].
  exists d, db'. destruct Hfields as (? & ? & ? & ? & ? & ? & ?).
  repeat split; assumption.
Defined.

(** C6 as stated fails for a payload without [tags]: the record that
    [create] stores and [get] returns has the key [tags], with the empty
    sequence, which the payload does not have. *)
Lemma create_then_get_counterexample :
  Product.validate (fields (Product.new "p3" payload_notags_ex)) = true
  ∧ Product.f_tags payload_notags_ex = None
  ∧ ∃ d db',
      Products.create "p3" payload_notags_ex db_ex = (Ok d, db')
      ∧ Products.get (_id d) db' = (Ok (Some d), db')
      ∧ tags (fields d) = []
      ∧ ¬ equal_to_input payload_notags_ex d.
Proof.
  split; [reflexivity|]. split; [reflexivity|].
  eexists _, _. split; [vm_compute; reflexivity|].
  split; [vm_compute; reflexivity|]. split; [reflexivity|].
  intros (_ & _ & _ & _ & _ & _ & Htags). discriminate Htags.
Qed.

(** * Further properties of the services *)

Local Open Scope list_scope.

(** ** Listing *)

Lemma Products_list_run (db : Db) (opts : Products.options) :
  Products.list opts db
  = (Ok (Query.limit (default 25 (Products.limit opts))
          (Query.skip (default 0 (Products.offset opts))
            (Query.sort
              (Query.find
                 (if truthy (Products.tag opts)
                  then Products.elemMatch_title (default "" (Products.tag opts))
                  else λ _, true)
                 (Product_coll db))))), db).
Proof. reflexivity. Qed.

Lemma Orders_list_run (db : Db) (opts : Orders.options) :
  Orders.list opts db
  = (Ok (Order.hydrate <$>
          Query.limit (default 25 (Orders.limit opts))
            (Query.skip (default 0 (Orders.offset opts))
              (Query.sort
                (Query.find
                   (λ d, Orders.productQuery (Orders.productId opts) d
                         && Orders.statusQuery (Orders.status opts) d)
                   (Order_coll db))))), db).
Proof. reflexivity. Qed.

Lemma productQuery_spec (p : option string) (d : doc (OrderFields string)) :
  Orders.productQuery p d = true ↔
  ∀ pid, p = Some pid → pid ≠ "" → pid ∈ products (fields d).
Proof.
  unfold Orders.productQuery. destruct p as [pid|]; simpl.
  - destruct (String.eqb_spec pid "") as [->|Hne]; simpl.
    + split; [|done]. by intros _ ? [= <-] ?.
    + rewrite bool_decide_eq_true. split; [by intros ? ? [= <-] _|].
      intros H. by apply H.
  - split; [|done]. by intros _ ? [=].
Qed.

Lemma statusQuery_spec (s : option string) (d : doc (OrderFields string)) :
  Orders.statusQuery s d = true ↔
  ∀ st, s = Some st → st ≠ "" → status (fields d) = Some st.
Proof.
  unfold Orders.statusQuery. destruct s as [st|]; simpl.
  - destruct (String.eqb_spec st "") as [->|Hne]; simpl.
    + split; [|done]. by intros _ ? [= <-] ?.
    + rewrite bool_decide_eq_true. split; [by intros ? ? [= <-] _|].
      intros H. by apply H.
  - split; [|done]. by intros _ ? [=].
Qed.

(** X1.  The candidates of [Orders.list] are the stored orders whose
    [products] contain [productId], when it is a non-empty string, and whose
    status equals [status], when it is a non-empty string, both conditions
    together when both are given; they are ordered by ascending identifier
    without repetition, skipped and cut as for products, and returned with
    their references as stored, not expanded. *)
Theorem Orders_list_page (db : Db) (opts : Orders.options) :
  let o := default 0 (Orders.offset opts) in
  let n := default 25 (Orders.limit opts) in
  ∃ candidates page,
    Orders.list opts db = (Ok (Order.hydrate <$> page), db)
    ∧ StronglySorted (λ d1 d2, String.le (_id d1) (_id d2)) candidates
    ∧ NoDup (_id <$> candidates)
    ∧ (∀ d, d ∈ candidates ↔
         Order_coll db !! _id d = Some (fields d)
         ∧ (∀ pid, Orders.productId opts = Some pid → pid ≠ "" →
                   pid ∈ products (fields d))
         ∧ (∀ st, Orders.status opts = Some st → st ≠ "" →
                  status (fields d) = Some st))
    ∧ (0 < n → page = take n (drop o candidates) ∧ length page ≤ n)
    ∧ (n = 0 → page = drop o candidates)
    ∧ (∀ d, d ∈ page →
         _id (order (Order.hydrate d)) = _id d
         ∧ products (fields (order (Order.hydrate d)))
           = Id <$> products (fields d)).
Proof.
  intros o n. rewrite Orders_list_run.
  set (query := λ d : doc (OrderFields string),
         Orders.productQuery (Orders.productId opts) d
         && Orders.statusQuery (Orders.status opts) d).
  exists (Query.sort (Query.find query (Order_coll db))),
         (Query.limit n (Query.skip o
            (Query.sort (Query.find query (Order_coll db))))).
  split; [reflexivity|]. split; [apply sort_StronglySorted|].
  split.
  { rewrite sort_Permutation. apply NoDup_filter_ids, NoDup_documents_ids. }
  split.
  { intros d. rewrite sort_Permutation, elem_of_find. unfold query.
    by rewrite andb_true_iff, productQuery_spec, statusQuery_spec. }
  split.
  { intros Hn. split; [|by apply limit_length].
    destruct n as [|n']; [lia|done]. }
  split; [by intros ->|]. done.
Qed.

Lemma page_compose {A} (l : list A) (o n : nat) :
  0 < n →
  Query.limit n (Query.skip o l) ++ Query.limit n (Query.skip (o + n) l)
  = Query.limit (n + n) (Query.skip o l).
Proof.
  intros Hn. destruct n as [|n]; [lia|].
  unfold Query.skip. rewrite <- drop_drop. simpl Query.limit.
  apply (take_take_drop _ (S n) (S n)).
Qed.

Lemma NoDup_ids_page {F} (l : list (doc F)) (o n : nat) :
  NoDup (_id <$> l) → NoDup (_id <$> Query.limit n (Query.skip o l)).
Proof.
  intros Hl. unfold Query.skip. eapply sublist_NoDup; [exact Hl|].
  destruct n as [|n]; simpl Query.limit.
  - rewrite fmap_drop. apply sublist_drop.
  - rewrite fmap_take, fmap_drop.
    etrans; [apply sublist_take|apply sublist_drop].
Qed.

(** X2.  Pages follow one another: for a positive [limit], the page at
    [offset] followed by the page at [offset + limit] is the page of twice
    the size at [offset], and no identifier occurs twice in it; so for
    both services. *)
Theorem list_pages_compose (db : Db) (o n : nat) :
  0 < n →
  (∀ tag, ∃ p1 p2,
      Products.list {| Products.offset := Some o; Products.limit := Some n;
                       Products.tag := tag |} db = (Ok p1, db)
      ∧ Products.list {| Products.offset := Some (o + n);
                         Products.limit := Some n;
                         Products.tag := tag |} db = (Ok p2, db)
      ∧ Products.list {| Products.offset := Some o;
                         Products.limit := Some (n + n);
                         Products.tag := tag |} db = (Ok (p1 ++ p2), db)
      ∧ NoDup (_id <$> (p1 ++ p2)))
  ∧ (∀ productId status, ∃ p1 p2,
      Orders.list {| Orders.offset := Some o; Orders.limit := Some n;
                     Orders.productId := productId;
                     Orders.status := status |} db = (Ok p1, db)
      ∧ Orders.list {| Orders.offset := Some (o + n); Orders.limit := Some n;
                       Orders.productId := productId;
                       Orders.status := status |} db = (Ok p2, db)
      ∧ Orders.list {| Orders.offset := Some o; Orders.limit := Some (n + n);
                       Orders.productId := productId;
                       Orders.status := status |} db = (Ok (p1 ++ p2), db)
      ∧ NoDup ((λ d, _id (order d)) <$> (p1 ++ p2))).
Proof.
  intros Hn. split.
  - intros tag. rewrite !Products_list_run. simpl default.
    eexists _, _. split; [reflexivity|]. split; [reflexivity|].
    rewrite page_compose by done. split; [reflexivity|].
    apply NoDup_ids_page. rewrite sort_Permutation.
    apply NoDup_filter_ids, NoDup_documents_ids.
  - intros productId status. rewrite !Orders_list_run. simpl default.
    eexists _, _. split; [reflexivity|]. split; [reflexivity|].
    rewrite <- fmap_app, page_compose by done. split; [reflexivity|].
    rewrite <- list_fmap_compose.
    apply (NoDup_ids_page (F:=OrderFields string)).
    rewrite sort_Permutation.
    apply NoDup_filter_ids, NoDup_documents_ids.
Qed.

Lemma list_pages_compose_witness :
  ∃ p1 p2,
    Products.list {| Products.offset := Some 0; Products.limit := Some 1;
                     Products.tag := None |} db_ex = (Ok p1, db_ex)
    ∧ Products.list {| Products.offset := Some 1; Products.limit := Some 1;
                       Products.tag := None |} db_ex = (Ok p2, db_ex)
    ∧ Products.list {| Products.offset := Some 0; Products.limit := Some 2;
                       Products.tag := None |} db_ex = (Ok (p1 ++ p2), db_ex)
    ∧ NoDup (_id <$> (p1 ++ p2)).
Proof.
  destruct (list_pages_compose db_ex 0 1) as [HP _]; [lia|].
  apply (HP None).
Defined.

(** X3.  Without a tag, [Products.list] returns as many products as the
    collection has after the first [offset], at most [limit] of them when
    [limit] is positive; in particular none, and no error, when [offset] is
    not below the size of the collection. *)
Theorem Products_list_count (db : Db) (o n : nat) :
  ∃ page,
    Products.list {| Products.offset := Some o; Products.limit := Some n;
                     Products.tag := None |} db = (Ok page, db)
    ∧ length page
      = match n with
        | 0 => size (Product_coll db) - o
        | _ => n `min` (size (Product_coll db) - o)
        end
    ∧ (size (Product_coll db) ≤ o → page = []).
Proof.
  rewrite Products_list_run. simpl. eexists. split; [reflexivity|].
  rewrite find_all.
  assert (length (Query.sort (Query.documents (Product_coll db)))
          = size (Product_coll db)) as Hlen.
  { rewrite sort_Permutation. unfold Query.documents.
    by rewrite length_fmap, length_map_to_list. }
  split.
  - unfold Query.skip. destruct n as [|n]; simpl Query.limit.
    + by rewrite length_drop, Hlen.
    + by rewrite length_take, length_drop, Hlen.
  - intros Hle. unfold Query.skip. rewrite drop_ge by lia.
    by destruct n.
Qed.

(** ** Validation, read as propositions *)

Lemma required_string_present (v : option string) :
  Schema.required_string v = true ↔ present v.
Proof.
  unfold present. destruct v as [s|]; simpl.
  - rewrite negb_true_iff, String.eqb_neq. split.
    + intros Hne. by exists s.
    + by intros (s' & [= <-] & Hne).
  - split; [done|]. by intros (s & [=] & _).
Qed.

Lemma Product_validate_complete (p : ProductFields) :
  Product.validate p = true ↔ Product_complete p.
Proof.
  unfold Product.validate, Product_complete.
  rewrite !andb_true_iff, !required_string_present, forallb_forall.
  rewrite Forall_forall.
  setoid_rewrite required_string_present.
  setoid_rewrite <- list_elem_of_In.
  assert (Schema.required_number (likes p) = true ↔ is_Some (likes p)) as ->.
  { destruct (likes p) as [z|]; simpl.
    - split; [by eauto|done].
    - split; [done|by intros [? [=]]]. }
  tauto.
Qed.

Lemma Order_validate_complete (o : OrderFields string) :
  Order.validate (fields (order (Order.hydrate (Doc "" o)))) = true
  ↔ Order_complete o.
Proof.
  unfold Order.validate, Order_complete. simpl.
  rewrite !andb_true_iff, required_string_present, forallb_forall.
  rewrite Forall_forall.
  assert (Order.enum_ok (Some (default "CREATED" (status o))) = true
          ↔ ∀ s, status o = Some s → s ∈ Order.status_enum) as ->.
  { unfold Order.enum_ok. rewrite bool_decide_eq_true.
    destruct (status o) as [s|]; simpl.
    - split; [by intros ? ? [= <-]|]. intros H. by apply H.
    - split; [by intros _ ? [=]|]. intros _. by left. }
  assert ((∀ r, In r (Id <$> products o) → Order.required_ref r = true)
          ↔ ∀ pid, pid ∈ products o → pid ≠ "") as ->; [|tauto].
  split.
  - intros H pid Hpid. specialize (H (Id pid)). simpl in H.
    apply String.eqb_neq, negb_true_iff, H, list_elem_of_In.
    by apply list_elem_of_fmap_2.
  - intros H r (pid & -> & Hpid)%list_elem_of_In%list_elem_of_fmap. simpl.
    apply negb_true_iff, String.eqb_neq. by apply H.
Qed.

(** ** Products.create *)

(** X4.  [Products.create] has three outcomes.  It throws
    [ValidationError] exactly when a required path of the new document is
    missing or empty, [MongoServerError] exactly when the document is
    complete and its identifier is already in the collection, and otherwise
    it returns the new document.  In each case every record that was stored
    is still stored unchanged, the orders are untouched, and only the
    identifier of the new document can have gained a record. *)
Theorem Products_create_outcome (db : Db) (cuid : string)
    (f : Product.payload) :
  let d := Product.new cuid f in
  let run := Products.create cuid f db in
  (run = (Throw ValidationError, db) ↔ ¬ Product_complete (fields d))
  ∧ (run = (Throw MongoServerError, db) ↔
       Product_complete (fields d) ∧ is_Some (Product_coll db !! _id d))
  ∧ (run.1 = Ok d ↔
       Product_complete (fields d) ∧ Product_coll db !! _id d = None)
  ∧ (∀ j p, Product_coll db !! j = Some p → Product_coll run.2 !! j = Some p)
  ∧ (∀ j, j ≠ _id d → Product_coll run.2 !! j = Product_coll db !! j)
  ∧ Order_coll run.2 = Order_coll db.
Proof.
  intros d run. unfold run. rewrite Products_create_run. cbv zeta. fold d.
  rewrite <- Product_validate_complete.
  destruct (Product.validate (fields d)) eqn:Hv;
    [destruct (Product_coll db !! _id d) as [q|] eqn:Hq|]; simpl.
  - split; [split; [done|by intros []]|].
    split; [split; [by eauto|done]|].
    split; [split; [done|by intros [_ [=]]]|]. done.
  - split; [split; [done|by intros []]|].
    split; [split; [done|by intros [_ [? [=]]]]|].
    split; [done|].
    split; [|split; [|done]].
    + intros j p Hj. rewrite lookup_insert_ne; [done|].
      intros Heq. subst j. unfold d in Hq. simpl in Hq. congruence.
    + intros j Hj. by rewrite lookup_insert_ne.
  - split; [split; [by intros _ [=]|done]|].
    split; [split; [done|by intros [[=] _]]|].
    split; [split; [done|by intros [[=] _]]|]. done.
Qed.

(** X5.  A product that was created is listed: after a successful
    [create], the unpaged listing holds the new document, every document it
    held before and nothing else, so one more than before. *)
Theorem Products_create_then_list (db : Db) (cuid : string)
    (f : Product.payload) :
  Product.validate (fields (Product.new cuid f)) = true →
  Product_coll db !! default cuid (Product.f_id f) = None →
  let all := {| Products.offset := None; Products.limit := Some 0;
                Products.tag := None |} in
  ∃ d db' before after,
    Products.create cuid f db = (Ok d, db')
    ∧ Products.list all db = (Ok before, db)
    ∧ Products.list all db' = (Ok after, db')
    ∧ (∀ x, x ∈ after ↔ x = d ∨ x ∈ before)
    ∧ length after = S (length before).
Proof.
  intros Hv Hfresh all. rewrite Products_create_run. cbv zeta.
  rewrite Hv. change (_id (Product.new cuid f))
    with (default cuid (Product.f_id f)).
  rewrite Hfresh. subst all.
  eexists _, _, _, _. split; [reflexivity|].
  rewrite !Products_list_run.
  cbn [Products.offset Products.limit Products.tag truthy].
  change (default 25 (Some 0)) with 0. change (default 0 None) with 0.
  cbn [Query.limit]. split; [reflexivity|].
  split; [reflexivity|]. unfold Query.skip. rewrite !drop_0, !find_all.
  split.
  - intros x. rewrite !sort_Permutation, !elem_of_documents.
    cbn [Product_coll].
    destruct (decide (_id x = default cuid (Product.f_id f))) as [Hx|Hx].
    + rewrite Hx, lookup_insert_eq, Hfresh. split.
      * intros [= Hf]. left. destruct x as [i fx]. simpl in *. by subst.
      * intros [->|[=]]. done.
    + rewrite lookup_insert_ne by done. split; [by right|].
      intros [->|]; [|done]. by destruct Hx.
  - rewrite !sort_Permutation. unfold Query.documents.
    rewrite !length_fmap, !length_map_to_list.
    by apply map_size_insert_None.
Qed.

Lemma Products_create_then_list_witness :
  ∃ d db' before after,
    Products.create "p3" payload_ex db_ex = (Ok d, db')
    ∧ Products.list {| Products.offset := None; Products.limit := Some 0;
                       Products.tag := None |} db_ex = (Ok before, db_ex)
    ∧ Products.list {| Products.offset := None; Products.limit := Some 0;
                       Products.tag := None |} db' = (Ok after, db')
    ∧ (∀ x, x ∈ after ↔ x = d ∨ x ∈ before)
    ∧ length after = S (length before).
Proof.
  apply (Products_create_then_list db_ex "p3" payload_ex); reflexivity.
Defined.

(** ** Products.edit *)

(** X6.  [Products.edit] on a stored product writes the keys of the change
    object over the record and validates the result.  When it is complete
    the result replaces the stored record, is returned, and is what [get]
    returns afterwards: each path holds the value of the change object when
    the change object has the key and the prior value otherwise.  When it is
    not complete, [ValidationError] is thrown and nothing is written.
    Either way the other products and the orders are untouched. *)
Theorem Products_edit_overwrites (db : Db) (id : string) (p : ProductFields)
    (c : Products.change) :
  Product_coll db !! id = Some p →
  ∃ r db' p',
    Products.edit id c db = (r, db')
    ∧ Order_coll db' = Order_coll db
    ∧ (∀ j, j ≠ id → Product_coll db' !! j = Product_coll db !! j)
    ∧ Products.get id db' = (Ok (Some (Doc id p')), db')
    ∧ ((r = Ok (Doc id p') ∧ Product_complete p'
        ∧ description p'
          = match Products.c_description c with
            | Some v => Some v | None => description p end
        ∧ alt_description p'
          = match Products.c_alt_description c with
            | Some v => Some v | None => alt_description p end
        ∧ likes p'
          = match Products.c_likes c with
            | Some v => Some v | None => likes p end
        ∧ urls p'
          = match Products.c_urls c with Some v => v | None => urls p end
        ∧ links p'
          = match Products.c_links c with Some v => v | None => links p end
        ∧ user p'
          = match Products.c_user c with Some v => v | None => user p end
        ∧ tags p'
          = match Products.c_tags c with Some v => v | None => tags p end)
       ∨ (r = Throw ValidationError ∧ db' = db ∧ p' = p
          ∧ ¬ Product_complete (fields (Products.assign c (Doc id p))))).
Proof.
  intros Hp. rewrite (Products_edit_present db id p c Hp). cbv zeta.
  destruct (Product.validate (fields (Products.assign c (Doc id p))))
    eqn:Hv.
  - eexists _, _, _. split; [reflexivity|]. cbn [Order_coll Product_coll].
    split; [done|]. split; [by intros j Hj; rewrite lookup_insert_ne|].
    split.
    { rewrite Products_get_run. cbn [Product_coll].
      by rewrite lookup_insert_eq. }
    left. split; [done|].
    split; [by apply Product_validate_complete|].
    destruct c as [[?|] [?|] [?|] [?|] [?|] [?|] [?|]]; by repeat split.
  - exists (Throw ValidationError), db, p. split; [done|].
    split; [done|]. split; [done|].
    split; [by rewrite Products_get_run, Hp|].
    right. repeat (split; [done|]).
    rewrite <- Product_validate_complete. by rewrite Hv.
Qed.

Lemma Products_edit_overwrites_witness :
  ∃ r db' p',
    Products.edit "p2" {| Products.c_description := Some "chair";
                          Products.c_alt_description := None;
                          Products.c_likes := None; Products.c_urls := None;
                          Products.c_links := None; Products.c_user := None;
                          Products.c_tags := Some [] |} db_ex = (r, db')
    ∧ Products.get "p2" db' = (Ok (Some (Doc "p2" p')), db')
    ∧ description p' = Some "chair" ∧ likes p' = Some 0%Z ∧ tags p' = [].
Proof.
  destruct (Products_edit_overwrites db_ex "p2" p2_ex
              {| Products.c_description := Some "chair";
                 Products.c_alt_description := None;
                 Products.c_likes := None; Products.c_urls := None;
                 Products.c_links := None; Products.c_user := None;
                 Products.c_tags := Some [] |})
    as (r & db' & p' & Hrun & _ & _ & Hget & Hcase); [reflexivity|].
  exists r, db', p'. split; [exact Hrun|]. split; [exact Hget|].
  destruct Hcase as [(_ & _ & Hd & _ & Hl & _ & _ & _ & Ht)
                    |(_ & _ & _ & Hbad)].
  - by repeat split.
  - exfalso. apply Hbad. apply Product_validate_complete. reflexivity.
Defined.

(** X8.  An edit with the empty change object never changes the database:
    for a stored product it returns the record when the record is complete
    and throws [ValidationError] when it is not, and for an absent one it
    throws [TypeError]. *)
Theorem Products_edit_no_change (db : Db) (id : string) :
  (Products.edit id no_change db).2 = db
  ∧ (∀ p, Product_coll db !! id = Some p →
          (Product_complete p →
             (Products.edit id no_change db).1 = Ok (Doc id p))
          ∧ (¬ Product_complete p →
             (Products.edit id no_change db).1 = Throw ValidationError))
  ∧ (Product_coll db !! id = None →
       (Products.edit id no_change db).1 = Throw TypeError).
Proof.
  assert (∀ p, Products.assign no_change (Doc id p) = Doc id p) as Hsame
    by (by intros []).
  split; [|split].
  - destruct (Product_coll db !! id) as [p|] eqn:Hp.
    + rewrite (Products_edit_present db id p _ Hp). cbv zeta. rewrite Hsame.
      destruct (Product.validate _); [|done]. cbn [snd fields].
      rewrite insert_id by done. apply Db_eta.
    + by rewrite Products_edit_absent.
  - intros p Hp. rewrite (Products_edit_present db id p _ Hp). cbv zeta.
    rewrite Hsame. cbn [fields]. rewrite <- Product_validate_complete.
    destruct (Product.validate p); split; try done; by intros [].
  - intros Hp. by rewrite Products_edit_absent.
Qed.

(** ** destroy, again *)

(** X9.  Deleting twice is deleting once.  [Products.destroy] reports one
    deleted document exactly when a product had the identifier and none
    otherwise, so the second of two calls reports none; neither service
    touches the other collection. *)
Theorem destroy_twice (db : Db) (id : string) :
  (∃ r, Products.destroy id db
        = (Ok r, {| Product_coll := delete id (Product_coll db);
                    Order_coll := Order_coll db |})
        ∧ acknowledged r = true
        ∧ (deletedCount r = 1 ↔ is_Some (Product_coll db !! id))
        ∧ (deletedCount r = 0 ↔ Product_coll db !! id = None))
  ∧ Products.destroy id (Products.destroy id db).2
    = (Ok {| acknowledged := true; deletedCount := 0 |},
       (Products.destroy id db).2)
  ∧ Orders.destroy id db
    = (Ok tt, {| Product_coll := Product_coll db;
                 Order_coll := delete id (Order_coll db) |})
  ∧ Orders.destroy id (Orders.destroy id db).2
    = (Ok tt, (Orders.destroy id db).2).
Proof.
  split; [|split; [|split]].
  - eexists. split; [reflexivity|]. split; [done|]. simpl.
    destruct (Product_coll db !! id) as [p|]; split; split;
      try done; try (by eauto); by intros [? [=]].
  - unfold Products.destroy, Product.deleteOne. run.
    by rewrite lookup_delete_eq, delete_delete_eq.
  - reflexivity.
  - unfold Orders.destroy, Order.deleteOne. run.
    by rewrite delete_delete_eq.
Qed.

(** ** create, then destroy *)

(** X10.  Deleting what was just created restores the database: after a
    successful [create], [destroy] on the identifier of the created record
    leaves the database that [create] started from, in both services. *)
Theorem create_destroy_roundtrip (db : Db) (cuid : string) :
  (∀ f, Product.validate (fields (Product.new cuid f)) = true →
        Product_coll db !! default cuid (Product.f_id f) = None →
        ∃ d db', Products.create cuid f db = (Ok d, db')
                 ∧ (Products.destroy (_id d) db').2 = db)
  ∧ (∀ f, Order.validate (fields (order (Order.new cuid f))) = true →
          Order_coll db !! default cuid (Order.f_id f) = None →
          ∃ d db', Orders.create cuid f db = (Ok d, db')
                   ∧ (Orders.destroy (_id (order d)) db').2 = db).
Proof.
  split; intros f Hv Hfresh.
  - rewrite Products_create_run. cbv zeta. rewrite Hv.
    change (_id (Product.new cuid f)) with (default cuid (Product.f_id f)).
    rewrite Hfresh. eexists _, _. split; [reflexivity|].
    unfold Products.destroy, Product.deleteOne. run.
    rewrite delete_insert_id by done. apply Db_eta.
  - rewrite Orders_create_run. cbv zeta. rewrite Hv, Hfresh.
    eexists _, _. split; [reflexivity|].
    unfold Orders.destroy, Order.deleteOne. run.
    rewrite delete_insert_id by done. apply Db_eta.
Qed.

Lemma create_destroy_roundtrip_witness :
  (∃ d db', Products.create "p3" payload_ex db_ex = (Ok d, db')
            ∧ (Products.destroy (_id d) db').2 = db_ex)
  ∧ (∃ d db', Orders.create "o3" order_payload_ex db_ex = (Ok d, db')
              ∧ (Orders.destroy (_id (order d)) db').2 = db_ex).
Proof.
  destruct (create_destroy_roundtrip db_ex "p3") as [HP _].
  destruct (create_destroy_roundtrip db_ex "o3") as [_ HO].
  split; [apply HP|apply HO]; reflexivity.
Defined.

(** ** getProduct *)

(** X11.  [getProduct] hands over to the next middleware exactly when no
    product has the requested identifier, and otherwise sends the stored
    record; it never throws and never writes.  After [deleteProduct] for
    the same request it hands over. *)
Theorem getProduct_next_iff_absent (db : Db) (req : Api.request) :
  (Api.getProduct req db = (Ok Api.Next, db)
   ↔ Product_coll db !! Api.params_id req = None)
  ∧ (∀ p, Api.getProduct req db
          = (Ok (Api.Json (Doc (Api.params_id req) p)), db)
          ↔ Product_coll db !! Api.params_id req = Some p)
  ∧ (∃ body db', Api.deleteProduct req db = (Ok body, db')
                 ∧ Api.getProduct req db' = (Ok Api.Next, db')).
Proof.
  assert (∀ db0, Api.getProduct req db0
            = (Ok (match Product_coll db0 !! Api.params_id req with
                   | Some p => Api.Json (Doc (Api.params_id req) p)
                   | None => Api.Next
                   end), db0)) as Hrun.
  { intros db0. unfold Api.getProduct, mbind, M_bind.
    rewrite Products_get_run.
    by destruct (Product_coll db0 !! Api.params_id req). }
  split; [|split].
  - rewrite Hrun. destruct (Product_coll db !! Api.params_id req);
      split; by intros [=].
  - intros p. rewrite Hrun.
    destruct (Product_coll db !! Api.params_id req) as [q|].
    + split; [by intros [= ->]|by intros [= ->]].
    + split; by intros [=].
  - eexists _, _. split; [reflexivity|]. rewrite Hrun.
    cbn [Product_coll]. by rewrite lookup_delete_eq.
Qed.

(** ** Products and the orders that name them *)

Lemma omap_fmap_list {A B C} (f : B → option C) (g : A → B) (l : list A) :
  omap f (g <$> l) = omap (λ x, f (g x)) l.
Proof.
  induction l as [|x l IH]; [done|]. simpl.
  destruct (f (g x)); [f_equal|]; exact IH.
Qed.

Lemma omap_filter_pointwise {A B} (f g : A → option B) (gone : A → bool)
    (keep : B → bool) (l : list A) :
  (∀ x, f x = if gone x then None else g x) →
  (∀ x y, g x = Some y → keep y = negb (gone x)) →
  omap f l = List.filter keep (omap g l).
Proof.
  intros Hf Hkeep. induction l as [|x l IH]; [done|]. simpl. rewrite Hf.
  destruct (g x) as [y|] eqn:Hg.
  - simpl. rewrite (Hkeep x y Hg).
    destruct (gone x); simpl; [|f_equal]; exact IH.
  - destruct (gone x); exact IH.
Qed.

Lemma resolve_after_delete (db db' : Db) (pid : string) (ids : list string) :
  Product_coll db' = delete pid (Product_coll db) →
  omap (Order.resolve db') (Id <$> ids)
  = List.filter (λ r, negb (String.eqb (Order.ref_id r) pid))
      (omap (Order.resolve db) (Id <$> ids)).
Proof.
  intros Hdb'. rewrite !omap_fmap_list.
  apply (omap_filter_pointwise _ _ (λ x, String.eqb x pid)).
  - intros x. simpl. rewrite Hdb'.
    destruct (String.eqb_spec x pid) as [->|Hne].
    + by rewrite lookup_delete_eq.
    + by rewrite lookup_delete_ne.
  - intros x y. simpl. destruct (Product_coll db !! x); [|done].
    by intros [= <-].
Qed.

(** X12.  Deleting a product does not cascade.  [Products.destroy] leaves
    every stored order as it is, references to the deleted product
    included; what changes is the view that [Orders.get] gives of an order,
    which is the view from before without the entries of the deleted
    product. *)
Theorem product_delete_no_cascade (db : Db) (pid id : string)
    (o : OrderFields string) :
  Order_coll db !! id = Some o →
  ∃ r db' d d',
    Products.destroy pid db = (Ok r, db')
    ∧ Order_coll db' = Order_coll db
    ∧ Orders.get id db = (Ok (Some d), db)
    ∧ Orders.get id db' = (Ok (Some d'), db')
    ∧ buyerEmail (fields (order d')) = buyerEmail (fields (order d))
    ∧ status (fields (order d')) = status (fields (order d))
    ∧ products (fields (order d'))
      = List.filter (λ r, negb (String.eqb (Order.ref_id r) pid))
          (products (fields (order d))).
Proof.
  intros Ho. eexists _, _, (loaded db id o), _.
  split; [reflexivity|]. split; [done|].
  split; [by rewrite Orders_get_run, Ho|].
  split; [rewrite Orders_get_run; cbn [Order_coll]; by rewrite Ho|].
  split; [done|]. split; [done|].
  cbn [loaded order fields products]. by apply resolve_after_delete.
Qed.

Lemma product_delete_no_cascade_witness :
  ∃ r db' d d',
    Products.destroy "p1" db_ex = (Ok r, db')
    ∧ Order_coll db' = Order_coll db_ex
    ∧ Orders.get "o1" db_ex = (Ok (Some d), db_ex)
    ∧ Orders.get "o1" db' = (Ok (Some d'), db')
    ∧ buyerEmail (fields (order d')) = buyerEmail (fields (order d))
    ∧ status (fields (order d')) = status (fields (order d))
    ∧ products (fields (order d'))
      = List.filter (λ r, negb (String.eqb (Order.ref_id r) "p1"))
          (products (fields (order d))).
Proof.
  apply (product_delete_no_cascade db_ex "p1" "o1" o1_ex). reflexivity.
Defined.

(** ** Orders.create *)

(** X13.  [Orders.create] has three outcomes, decided by the payload and
    the identifiers of the stored orders alone: [ValidationError] exactly
    when the buyer e-mail is missing or empty, a product identifier is the
    empty string or the status is outside the enum; [MongoServerError]
    exactly when the payload passes and its identifier is taken; otherwise
    the order is stored with the product identifiers as given, whether or
    not products with these identifiers exist.  Stored orders are never
    changed and products never touched. *)
Theorem Orders_create_outcome (db : Db) (cuid : string) (f : Order.payload) :
  let id := default cuid (Order.f_id f) in
  let o := {| buyerEmail := Order.f_buyerEmail f;
              products := default [] (Order.f_products f);
              status := Some (default "CREATED" (Order.f_status f)) |} in
  let run := Orders.create cuid f db in
  (run = (Throw ValidationError, db) ↔ ¬ Order_complete o)
  ∧ (run = (Throw MongoServerError, db) ↔
       Order_complete o ∧ is_Some (Order_coll db !! id))
  ∧ ((∃ d, run = (Ok d, {| Product_coll := Product_coll db;
                           Order_coll := <[id := o]> (Order_coll db) |}))
     ↔ Order_complete o ∧ Order_coll db !! id = None)
  ∧ Product_coll run.2 = Product_coll db
  ∧ (∀ j q, Order_coll db !! j = Some q → Order_coll run.2 !! j = Some q).
Proof.
  intros id o run. unfold run. rewrite Orders_create_run. cbv zeta.
  fold id. fold o. rewrite <- Order_validate_complete.
  change (fields (order (Order.hydrate (Doc "" o))))
    with (fields (order (Order.new cuid f))).
  destruct (Order.validate (fields (order (Order.new cuid f)))) eqn:Hv;
    [destruct (Order_coll db !! id) as [q|] eqn:Hq|]; cbn [snd].
  - split; [split; [done|by intros []]|].
    split; [split; [by eauto|done]|].
    split; [split; [by intros [? [=]]|by intros [_ [=]]]|]. done.
  - split; [split; [done|by intros []]|].
    split; [split; [done|by intros [_ [? [=]]]]|].
    split; [split; [done|by eauto]|].
    split; [done|]. intros j q' Hj. cbn [Order_coll].
    rewrite lookup_insert_ne; [done|]. intros <-. congruence.
  - split; [split; [by intros _ [=]|done]|].
    split; [split; [done|by intros [[=] _]]|].
    split; [split; [by intros [? [=]]|by intros [[=] _]]|]. done.
Qed.

(** ** Orders.edit *)

Lemma populated_required (db : Db) (ids : list string) :
  forallb Order.required_ref (omap (Order.resolve db) (Id <$> ids)) = true.
Proof.
  rewrite omap_fmap_list. induction ids as [|x ids IH]; [done|]. simpl.
  destruct (Product_coll db !! x); simpl; exact IH.
Qed.

Lemma forallb_required_Id (l : list string) :
  forallb Order.required_ref (Id <$> l) = true ↔ Forall (λ pid, pid ≠ "") l.
Proof.
  induction l as [|x l IH]; simpl; [by split|].
  rewrite andb_true_iff, Forall_cons, negb_true_iff, String.eqb_neq.
  by rewrite <- IH.
Qed.

Lemma enum_ok_spec (v : option string) :
  Order.enum_ok v = true ↔ ∀ s, v = Some s → s ∈ Order.status_enum.
Proof.
  unfold Order.enum_ok. destruct v as [s|].
  - rewrite bool_decide_eq_true. split; [by intros ? ? [= <-]|].
    intros H. by apply H.
  - split; [|done]. by intros _ ? [=].
Qed.

Lemma Orders_assign_fields (c : Orders.change) (d : OrderDoc) :
  fields (order (Orders.assign c d))
  = {| buyerEmail := match Orders.c_buyerEmail c with
                     | Some v => Some v
                     | None => buyerEmail (fields (order d))
                     end;
       products := match Orders.c_products c with
                   | Some l => Id <$> l
                   | None => products (fields (order d))
                   end;
       status := match Orders.c_status c with
                 | Some v => Some v
                 | None => status (fields (order d))
                 end |}.
Proof. destruct d as [[i [e ps st]] m], c as [[?|] [?|] [?|]]; reflexivity. Qed.

Lemma Orders_edit_validate (db : Db) (id : string) (o : OrderFields string)
    (c : Orders.change) :
  Order.validate (fields (order (Orders.assign c (loaded db id o)))) = true
  ↔ present (match Orders.c_buyerEmail c with
             | Some v => Some v | None => buyerEmail o end)
    ∧ (∀ l, Orders.c_products c = Some l → Forall (λ pid, pid ≠ "") l)
    ∧ (∀ s, match Orders.c_status c with
            | Some v => Some v
            | None => Some (default "CREATED" (status o))
            end = Some s →
            s ∈ Order.status_enum).
Proof.
  rewrite Orders_assign_fields. unfold Order.validate.
  cbn [buyerEmail products status loaded order fields].
  rewrite !andb_true_iff, required_string_present, enum_ok_spec.
  assert (forallb Order.required_ref
            match Orders.c_products c with
            | Some l => Id <$> l
            | None => omap (Order.resolve db) (Id <$> products o)
            end = true
          ↔ ∀ l, Orders.c_products c = Some l → Forall (λ pid, pid ≠ "") l)
    as ->; [|tauto].
  destruct (Orders.c_products c) as [l|].
  - rewrite forallb_required_Id. split; [by intros ? ? [= <-]|].
    intros H. by apply H.
  - rewrite populated_required. split; [|done]. by intros _ ? [=].
Qed.

(** X14.  [Orders.edit] on a stored order, on the schema paths of the
    order.  An order stored without status is loaded with status [CREATED].
    The edit succeeds exactly when the buyer e-mail and the status that
    result from the change pass their validators and, if the change brings
    [products], none of the new identifiers is empty; the stored references
    are not examined.  On success the stored record has the keys of the
    change object replaced, a missing status filled with [CREATED], and the
    other paths as before, dangling references included.  The returned
    order has the same e-mail and status; its [products] are the expanded
    view of the stored references when the change has no [products], and
    then it is what [get] returns afterwards, and they are the bare new
    identifiers when the change has [products].  On failure
    [ValidationError] is thrown and nothing is written.  Products and the
    other orders are untouched. *)
Theorem Orders_edit_overwrites (db : Db) (id : string)
    (o : OrderFields string) (c : Orders.change) :
  Order_coll db !! id = Some o →
  let o' := {| buyerEmail := match Orders.c_buyerEmail c with
                             | Some v => Some v | None => buyerEmail o end;
               products := match Orders.c_products c with
                           | Some l => l | None => products o end;
               status := match Orders.c_status c with
                         | Some v => Some v
                         | None => Some (default "CREATED" (status o))
                         end |} in
  let ok := present (buyerEmail o')
            ∧ (∀ l, Orders.c_products c = Some l →
                    Forall (λ pid, pid ≠ "") l)
            ∧ (∀ s, status o' = Some s → s ∈ Order.status_enum) in
  ∃ r db',
    Orders.edit id c db = (r, db')
    ∧ Product_coll db' = Product_coll db
    ∧ (∀ j, j ≠ id → Order_coll db' !! j = Order_coll db !! j)
    ∧ ((ok ∧ ∃ d, r = Ok d
          ∧ Order_coll db' !! id = Some o'
          ∧ _id (order d) = id
          ∧ buyerEmail (fields (order d)) = buyerEmail o'
          ∧ status (fields (order d)) = status o'
          ∧ (Orders.c_products c = None →
               expands db (products o) (products (fields (order d)))
               ∧ Orders.get id db' = (Ok (Some d), db'))
          ∧ (∀ l, Orders.c_products c = Some l →
                  products (fields (order d)) = Id <$> l))
       ∨ (¬ ok ∧ r = Throw ValidationError ∧ db' = db)).
Proof.
  intros Ho o' ok. rewrite (Orders_edit_present db id o c Ho). cbv zeta.
  assert (Order.validate
            (fields (order (Orders.assign c (loaded db id o)))) = true
          ↔ ok) as Hok by apply Orders_edit_validate.
  destruct (Order.validate _) eqn:Hv.
  - eexists _, _. split; [reflexivity|]. cbn [Product_coll Order_coll].
    split; [done|]. split; [by intros j Hj; rewrite lookup_insert_ne|].
    left. split; [by apply Hok|]. eexists. split; [reflexivity|].
    rewrite lookup_insert_eq, Orders_edit_stored.
    split.
    { unfold o'. by destruct (Orders.c_buyerEmail c), (Orders.c_products c),
        (Orders.c_status c). }
    cbn [Order.saved order]. rewrite assign_id, Orders_assign_fields.
    cbn [loaded order fields buyerEmail status products _id].
    split; [done|]. split; [done|]. split; [done|]. split.
    + intros Hnone. rewrite Hnone. split; [apply populate_expands|].
      rewrite Orders_get_run. cbn [Order_coll]. rewrite lookup_insert_eq.
      cbn [fmap option_fmap option_map]. do 3 f_equal.
      unfold loaded, Order.saved.
      destruct c as [[e|] [l|] [s|]]; simpl in Hnone; try discriminate;
        reflexivity.
    + by intros l ->.
  - exists (Throw ValidationError), db. split; [done|]. split; [done|].
    split; [done|]. right. split; [|done].
    intros H. apply Hok in H. done.
Qed.

Lemma Orders_edit_overwrites_witness :
  ∃ r db',
    Orders.edit "o3" {| Orders.c_buyerEmail := Some "x@y.org";
                        Orders.c_products := None;
                        Orders.c_status := None |} db3_ex = (r, db')
    ∧ Order_coll db' !! "o3"
      = Some {| buyerEmail := Some "x@y.org";
                products := ["p1"; "gone"; "p2"; "p1"];
                status := Some "CREATED" |}.
Proof.
  destruct (Orders_edit_overwrites db3_ex "o3" o3_ex
              {| Orders.c_buyerEmail := Some "x@y.org";
                 Orders.c_products := None; Orders.c_status := None |})
    as (r & db' & Hrun & _ & _ & Hcase); [reflexivity|].
  exists r, db'. split; [exact Hrun|].
  destruct Hcase as [(_ & d & _ & Hstored & _)|(Hbad & _)];
    [exact Hstored|].
  exfalso. apply Hbad. apply (Orders_edit_validate db3_ex "o3" o3_ex).
  reflexivity.
Defined.

(** X15.  The status of an order may be set to any value of the enum at any
    time: whatever the stored status, [edit(id, {status: s})] on a stored
    order with a buyer e-mail succeeds for [s] in [CREATED], [PENDING],
    [COMPLETED], and the stored record afterwards differs from the prior one
    in its status only. *)
Theorem Orders_edit_any_status (db : Db) (id s : string)
    (o : OrderFields string) :
  Order_coll db !! id = Some o →
  present (buyerEmail o) →
  s ∈ Order.status_enum →
  ∃ d,
    Orders.edit id (status_only s) db
    = (Ok d, {| Product_coll := Product_coll db;
                Order_coll :=
                  <[id := {| buyerEmail := buyerEmail o;
                             products := products o;
                             status := Some s |}]> (Order_coll db) |})
    ∧ status (fields (order d)) = Some s.
Proof.
  intros Ho He Hs. rewrite (Orders_edit_present db id o _ Ho). cbv zeta.
  assert (Order.validate
            (fields (order (Orders.assign (status_only s) (loaded db id o))))
          = true) as ->.
  { apply Orders_edit_validate. cbn [status_only Orders.c_buyerEmail
      Orders.c_products Orders.c_status].
    split; [done|]. split; [by intros ? [=]|]. by intros ? [= <-]. }
  eexists. split.
  - rewrite Orders_edit_stored. reflexivity.
  - reflexivity.
Qed.

Lemma Orders_edit_any_status_witness :
  ∃ d,
    Orders.edit "o2" (status_only "CREATED") db2_ex
    = (Ok d, {| Product_coll := Product_coll db2_ex;
                Order_coll :=
                  <["o2" := {| buyerEmail := Some "c@d.org";
                               products := ["p2"];
                               status := Some "CREATED" |}]>
                    (Order_coll db2_ex) |})
    ∧ status (fields (order d)) = Some "CREATED".
Proof.
  apply (Orders_edit_any_status db2_ex "o2" "CREATED" o2_ex).
  - reflexivity.
  - exists "c@d.org". split; [reflexivity|discriminate].
  - apply (bool_decide_eq_true_1 _). vm_compute. reflexivity.
Defined.

(** ** The schema as an invariant of the database *)

Lemma Db_valid_Order_complete (db : Db) (id : string)
    (o : OrderFields string) :
  Db_valid db → Order_coll db !! id = Some o → Order_complete o.
Proof.
  intros [_ HO] Ho. apply Order_validate_complete.
  by apply (map_Forall_lookup_1 _ _ _ _ HO Ho).
Qed.

(** X17.  Once every stored product and order passes the validators of its
    schema, this remains so after any call of [create], [edit] or [destroy]
    of either service, whatever the arguments and whether the call succeeds
    or throws. *)
Theorem Db_valid_preserved (db : Db) :
  Db_valid db →
  (∀ cuid f, Db_valid (Products.create cuid f db).2)
  ∧ (∀ id c, Db_valid (Products.edit id c db).2)
  ∧ (∀ id, Db_valid (Products.destroy id db).2)
  ∧ (∀ cuid f, Db_valid (Orders.create cuid f db).2)
  ∧ (∀ id c, Db_valid (Orders.edit id c db).2)
  ∧ (∀ id, Db_valid (Orders.destroy id db).2).
Proof.
  intros Hdb. pose proof Hdb as [HP HO].
  split; [|split; [|split; [|split; [|split]]]].
  - intros cuid f. rewrite Products_create_run. cbv zeta.
    destruct (Product.validate _) eqn:Hv; [|done].
    destruct (Product_coll db !! _); [done|].
    split; [|done]. cbn [snd Product_coll]. by apply map_Forall_insert_2.
  - intros id c. destruct (Product_coll db !! id) as [p|] eqn:Hp.
    + rewrite (Products_edit_present db id p c Hp). cbv zeta.
      destruct (Product.validate _) eqn:Hv; [|done].
      split; [|done]. cbn [snd Product_coll]. by apply map_Forall_insert_2.
    + by rewrite Products_edit_absent.
  - intros id. split; [|done]. by apply map_Forall_delete.
  - intros cuid f. rewrite Orders_create_run. cbv zeta.
    destruct (Order.validate _) eqn:Hv; [|done].
    destruct (Order_coll db !! _); [done|].
    split; [done|]. cbn [snd Order_coll]. by apply map_Forall_insert_2.
  - intros id c. destruct (Order_coll db !! id) as [o|] eqn:Ho.
    + rewrite (Orders_edit_present db id o c Ho). cbv zeta.
      destruct (Order.validate _) eqn:Hv; [|done].
      split; [done|]. cbn [snd Order_coll].
      apply map_Forall_insert_2; [|done].
      apply Order_validate_complete. rewrite Orders_edit_stored.
      apply Orders_edit_validate in Hv as (He & Hps & Hst).
      pose proof (Db_valid_Order_complete db id o Hdb Ho) as (_ & Hps0 & _).
      split; [|split]; cbn [buyerEmail products status].
      * by destruct (Orders.c_buyerEmail c).
      * destruct (Orders.c_products c) as [l|]; [by apply Hps|done].
      * by destruct (Orders.c_status c).
    + by rewrite Orders_edit_absent.
  - intros id. split; [done|]. by apply map_Forall_delete.
Qed.

Lemma Db_valid_preserved_witness :
  Db_valid (Products.create "p3" payload_ex db_ex).2
  ∧ Db_valid (Orders.edit "o1" (status_only "PENDING") db_ex).2
  ∧ Db_valid (Orders.destroy "o1" db_ex).2.
Proof.
  assert (Db_valid db_ex) as Hdb.
  { split; apply (bool_decide_unpack _); vm_compute; exact I. }
  destruct (Db_valid_preserved db_ex Hdb) as (Hpc & _ & _ & _ & Hoe & Hod).
  split; [apply Hpc|]. split; [apply Hoe|apply Hod].
Defined.
